(** * namuplot.themes: a shallow embedding and its verified properties

    The module [namuplot/themes.py] loads a mapping of theme names to colour
    palettes, turns every palette into a matplotlib [RcParams] object and
    offers [available], [get], [use], [iter_use], [context] and
    [to_rcparams] on the resulting registry.

    Modelling decisions:
    - a Python [str] is a [string]; its characters are code points below 256;
    - a Python [dict] whose order is observable (the parsed style file, the
      registry) is an association list with unique keys, in insertion order;
    - an [RcParams] object is a finite map from property keys to values that
      lives at a location of a heap, because several names can refer to the
      same object; float literals are binary64 values;
    - an assignment [rc[key] = val] to an [RcParams] goes through
      matplotlib's validation, which raises [ValueError] or stores a
      normalised value. Matplotlib is not part of this repository: what its
      validators do on colours written with hexadecimal digits and on the
      constants the module assigns is written out; what they do elsewhere
      (named colours and the like) is a parameter, the class [Validators];
    - the process-wide [mpl.rcParams] is a field of the world state;
    - a Python function that can raise and that reads or writes the heap or
      the global configuration is a computation in a state-and-exception
      monad: the state survives a raised exception. *)

From Stdlib Require Import Strings.Ascii Strings.String Floats.PrimFloat.
From stdpp Require Import gmap strings list sorting.

#[local] Set Warnings "-inexact-float,-register-all,-clear-no-such-hyp".

Local Open Scope string_scope.
Local Open Scope list_scope.

(** ** Python strings: [repr], containment, [sorted] *)

Module PyStr.

Definition quote1 : ascii := "'"%char.
Definition quote2 : ascii := "034"%char.
Definition backslash : ascii := "\"%char.

Fixpoint has_char (c : ascii) (s : string) : bool :=
  match s with
  | EmptyString => false
  | String a s' => if Ascii.eqb a c then true else has_char c s'
  end.

(** [str.isprintable] on one code point below 256. *)
Definition isprintable (c : ascii) : bool :=
  let n := N_of_ascii c in
  ((32 <=? n) && (n <=? 126) || (161 <=? n) && negb (n =? 173))%N.

Definition hexdigit (n : N) : ascii :=
  match n with
  | 0 => "0" | 1 => "1" | 2 => "2" | 3 => "3" | 4 => "4" | 5 => "5"
  | 6 => "6" | 7 => "7" | 8 => "8" | 9 => "9" | 10 => "a" | 11 => "b"
  | 12 => "c" | 13 => "d" | 14 => "e" | _ => "f"
  end%N%char.

(** The escape of one character inside [repr] of a string quoted by [q]. *)
Definition repr_char (q c : ascii) : string :=
  let n := N_of_ascii c in
  if Ascii.eqb c q || Ascii.eqb c backslash then String backslash (String c EmptyString)
  else if (n =? 9)%N then String backslash "t"
  else if (n =? 10)%N then String backslash "n"
  else if (n =? 13)%N then String backslash "r"
  else if isprintable c then String c EmptyString
  else String backslash
         (String "x" (String (hexdigit (n / 16)) (String (hexdigit (n mod 16)) EmptyString))).

Fixpoint repr_body (q : ascii) (s : string) : string :=
  match s with
  | EmptyString => EmptyString
  | String c s' => repr_char q c +:+ repr_body q s'
  end.

(** [repr(s)]: double quotes only when [s] has a single quote and no double
    quote. *)
Definition repr_quote (s : string) : ascii :=
  if has_char quote1 s && negb (has_char quote2 s) then quote2 else quote1.

Definition repr (s : string) : string :=
  let q := repr_quote s in
  String q (repr_body q s +:+ String q EmptyString).

Fixpoint join (sep : string) (l : list string) : string :=
  match l with
  | [] => EmptyString
  | [x] => x
  | x :: l' => x +:+ sep +:+ join sep l'
  end.

(** [repr] of a list of strings, as an f-string formats it. *)
Definition repr_list (l : list string) : string :=
  "[" +:+ join ", " (repr <$> l) +:+ "]".

(** [sorted(names)]: strings compare by code point, lexicographically. *)
Definition sorted (l : list string) : list string :=
  merge_sort String.le l.

(** [needle in hay]. *)
Fixpoint prefixb (p s : string) : bool :=
  match p, s with
  | EmptyString, _ => true
  | String a p', String b s' => Ascii.eqb a b && prefixb p' s'
  | String _ _, EmptyString => false
  end.

Fixpoint containsb (needle hay : string) : bool :=
  prefixb needle hay ||
  match hay with
  | EmptyString => false
  | String _ hay' => containsb needle hay'
  end.

Definition contains (needle hay : string) : Prop :=
  ∃ pre post, hay = pre +:+ needle +:+ post.

(** A character that [repr] leaves as it is under single quotes. *)
Definition plain_char (c : ascii) : bool :=
  isprintable c && negb (Ascii.eqb c quote1) && negb (Ascii.eqb c backslash).

Fixpoint plain (s : string) : bool :=
  match s with
  | EmptyString => true
  | String c s' => plain_char c && plain s'
  end.

End PyStr.

(** ** Python dictionaries in insertion order *)

Module PyDict.
Section dict.
Context {V : Type}.

Fixpoint getitem (d : list (string * V)) (k : string) : option V :=
  match d with
  | [] => None
  | (k', v) :: d' => if decide (k' = k) then Some v else getitem d' k
  end.

(** [d[k] = v]: an existing key keeps its position, a new key goes last. *)
Fixpoint setitem (d : list (string * V)) (k : string) (v : V) : list (string * V) :=
  match d with
  | [] => [(k, v)]
  | (k', v') :: d' =>
      if decide (k' = k) then (k', v) :: d' else (k', v') :: setitem d' k v
  end.

Definition keys (d : list (string * V)) : list string := d.*1.

(** The dictionary that [json.loads] builds from the members of a JSON
    object, read in file order. *)
Definition of_pairs (l : list (string * V)) : list (string * V) :=
  foldl (λ d kv, setitem d kv.1 kv.2) [] l.

End dict.
End PyDict.

(** ** Exceptions, the world state and the monad of Python computations *)

(** [ValueError] is what matplotlib's validation raises; its argument is
    the property key of the assignment, or the property name given to
    [mpl.cycler]; the text of its message is not modelled. *)
Inductive exn :=
  | KeyError (arg : string)
  | ValueError (key : string)
  | OtherError (cls arg : string).

Inductive result (A : Type) :=
  | Ok (a : A)
  | Raise (e : exn).
Arguments Ok {A} a.
Arguments Raise {A} e.

(** Values stored under the property keys of an [RcParams]. *)
Inductive rcvalue :=
  | VStr (s : string)
  | VBool (b : bool)
  | VInt (n : Z)
  | VFloat (f : float)
  | VStrList (l : list string)
  | VIntPair (a b : Z)
  | VIntList (l : list Z)
  | VFloatTuple (l : list float)
  | VCycler (prop : string) (vals : list string).

Abbreviation rcmap := (gmap string rcvalue).
Abbreviation loc := nat.

(** [rcParams] is [mpl.rcParams]; [heap] holds every other [RcParams]
    object, addressed by its position. *)
Record world := World {
  rcParams : rcmap;
  heap : list rcmap
}.

Definition M (A : Type) : Type := world → world * result A.

Definition raise {A} (e : exn) : M A := λ w, (w, Raise e).

#[global] Instance M_ret : MRet M := λ A a w, (w, Ok a).
#[global] Instance M_bind : MBind M := λ A B k c w,
  match c w with
  | (w', Ok a) => k a w'
  | (w', Raise e) => (w', Raise e)
  end.

(** The object a reference points to. A reference handed out by
    [RcParams_new] always points into the heap. *)
Definition deref (w : world) (l : loc) : rcmap := default ∅ (heap w !! l).

(** [mpl.RcParams()]: a new, empty object. *)
Definition RcParams_new : M loc :=
  λ w, (World (rcParams w) (heap w ++ [∅]), Ok (length (heap w))).

(** The store behind [rc[key] = val] on a heap object: what
    [RcParams.__setitem__] does with a value once it is validated
    ([RcParams_setitem] below is the assignment with its validation). *)
Definition rc_setitem (l : loc) (key : string) (val : rcvalue) : M unit :=
  λ w, (World (rcParams w) (alter (insert key val) l (heap w)), Ok tt).

(** [dst.update(src)] on heap objects: every item of [src] is stored in
    [dst]; keys of [dst] that [src] lacks keep their value. *)
Definition rc_update (dst src : loc) : M unit :=
  λ w, (World (rcParams w) (alter (λ m, deref w src ∪ m) dst (heap w)), Ok tt).

(** [mpl.rcParams.update(src)]. *)
Definition rcParams_update (src : loc) : M unit :=
  λ w, (World (deref w src ∪ rcParams w) (heap w), Ok tt).

(** Modelled from the spec: [mpl.rc_context] belongs to the plotting
    library, an external collaborator offering a "scoped
    context-manager-style temporary override with guaranteed restoration".
    [with mpl.rc_context(rc=src): body] copies the global configuration on
    entry, updates it from [src], and puts the copy back when the block is
    left, normally or not. *)
Definition rc_context {A} (src : loc) (body : M A) : M A :=
  λ w,
    let orig := rcParams w in
    match rcParams_update src w with
    | (w1, Ok _) =>
        let (w2, r) := body w1 in
        (World orig (heap w2), r)
    | (w1, Raise e) => (World orig (heap w1), Raise e)
    end.

(** ** Validation of assignments to an [RcParams]

    Modelled from the spec: the plotting library, matplotlib, is not under
    the sources. Missing are [RcParams.__setitem__] with the validators of
    the keys the module assigns, and [mpl.cycler]. They are written out,
    after matplotlib's [rcsetup], where their result does not depend on the
    library's tables of colour names: on [none], on colours written with
    hexadecimal digits and on the constants of the module. The rest is taken
    as a parameter. *)

Module PyStr_lower.
(** [str.lower] on code points below 256. *)
Definition lower_char (c : ascii) : ascii :=
  let n := N_of_ascii c in
  if ((65 <=? n) && (n <=? 90) || (192 <=? n) && (n <=? 222) && negb (n =? 215))%N
  then ascii_of_N (n + 32) else c.

Fixpoint lower (s : string) : string :=
  match s with
  | EmptyString => EmptyString
  | String c s' => String (lower_char c) (lower s')
  end.
End PyStr_lower.

(** A character of the class [[a-fA-F0-9]]. *)
Definition is_hex_digit (c : ascii) : bool :=
  let n := N_of_ascii c in
  ((48 <=? n) && (n <=? 57) || (65 <=? n) && (n <=? 70) || (97 <=? n) && (n <=? 102))%N.

Fixpoint all_hex (s : string) : bool :=
  match s with
  | EmptyString => true
  | String c s' => is_hex_digit c && all_hex s'
  end.

Definition starts_with_hash (s : string) : bool :=
  match s with
  | String "#" _ => true
  | _ => false
  end.

(** [s] is [#] followed by [n] hexadecimal digits. *)
Definition hash_hex (n : nat) (s : string) : bool :=
  match s with
  | String "#" d => all_hex d && Nat.eqb (String.length d) n
  | _ => false
  end.

(** A colour in the notation [#rrggbb] or [#rrggbbaa]. *)
Definition hex_color (s : string) : bool := hash_hex 6 s || hash_hex 8 s.

(** Six or eight hexadecimal digits without the [#]. *)
Definition bare_hex (s : string) : bool :=
  (Nat.eqb (String.length s) 6 || Nat.eqb (String.length s) 8) && all_hex s.

Definition is_none (s : string) : bool :=
  bool_decide (PyStr_lower.lower s = "none").

(** The strings on which [validate_color] is decided without the library's
    tables: ["none"] in any case, six or eight hexadecimal digits, and what
    starts with [#], except [#] with three or four hexadecimal digits. *)
Definition color_decided (s : string) : bool :=
  is_none s || bare_hex s
  || starts_with_hash s && negb (hash_hex 3 s || hash_hex 4 s).

(** [validate_color] on these strings: ["none"], the digits with a [#]
    put in front, the [#rrggbb] or [#rrggbbaa] colour itself; any other
    string that starts with [#] is no colour. *)
Definition validate_color_decided (s : string) : option string :=
  if is_none s then Some "none"
  else if bare_hex s then Some (String "#" s)
  else if hex_color s then Some s
  else None.

(** What matplotlib's validation does outside the part written out here:
    [color_other] is [validate_color] on the other strings, [cycler_other] is
    [mpl.cycler(color=...)] on a list with such a string, [setitem_other] is
    the validation of the other key and value pairs. [None] stands for a
    [ValueError]. *)
Class Validators := {
  color_other : string → option rcvalue;
  cycler_other : list string → option rcvalue;
  setitem_other : string → rcvalue → result rcvalue
}.

Definition color_keys : list string :=
  [ "figure.facecolor"; "figure.edgecolor"; "axes.facecolor"; "axes.edgecolor";
    "axes.labelcolor"; "text.color"; "xtick.color"; "ytick.color"; "grid.color";
    "patch.edgecolor"; "boxplot.flierprops.markeredgecolor" ].

Definition color_or_auto_keys : list string :=
  [ "savefig.facecolor"; "savefig.edgecolor"; "axes.titlecolor" ].

Definition bool_keys : list string :=
  [ "axes.grid"; "axes.spines.top"; "axes.spines.right"; "legend.frameon";
    "axes.unicode_minus"; "axes.formatter.useoffset" ].

Definition float_keys : list string :=
  [ "grid.alpha"; "grid.linewidth"; "lines.linewidth"; "lines.markersize";
    "errorbar.capsize" ].

(** [float(n)] for an integer below 2^53 in absolute value, where it is
    exact. *)
Fixpoint float_of_positive (p : positive) : float :=
  match p with
  | xH => 1
  | xO p' => 2 * float_of_positive p'
  | xI p' => 2 * float_of_positive p' + 1
  end%float.

Definition float_of_Z (n : Z) : option float :=
  if bool_decide (Z.abs n < 2 ^ 53)%Z then
    Some match n with
         | Z0 => 0%float
         | Zpos p => float_of_positive p
         | Zneg p => (- float_of_positive p)%float
         end
  else None.

Definition of_option (key : string) (o : option rcvalue) : result rcvalue :=
  match o with
  | Some v => Ok v
  | None => Raise (ValueError key)
  end.

Section validation.
Context {mpl : Validators}.

Definition validate_color (s : string) : option rcvalue :=
  if color_decided s then VStr <$> validate_color_decided s else color_other s.

(** [validate_color_or_auto] *)
Definition validate_color_or_auto (s : string) : option rcvalue :=
  if bool_decide (s = "auto") then Some (VStr "auto") else validate_color s.

(** [mpl.cycler(color=cycle)]: every colour is validated; the cycler holds
    the validated colours. *)
Definition cycler_color (cycle : list string) : option rcvalue :=
  if forallb color_decided cycle
  then VCycler "color" <$> mapM validate_color_decided cycle
  else cycler_other cycle.

(** The validator of [key] applied to [val]: the validated value that is
    stored, or the exception. *)
Definition validate (key : string) (val : rcvalue) : result rcvalue :=
  match val with
  | VStr s =>
      if bool_decide (key ∈ color_keys) then of_option key (validate_color s)
      else if bool_decide (key ∈ color_or_auto_keys)
      then of_option key (validate_color_or_auto s)
      else if bool_decide (key = "grid.linestyle" ∧ s = "-") then Ok (VStr "-")
      else if bool_decide (key = "font.family" ∧ s = "sans-serif")
      then Ok (VStrList ["sans-serif"])
      else setitem_other key val
  | VBool b =>
      if bool_decide (key ∈ bool_keys) then Ok (VBool b) else setitem_other key val
  | VFloat f =>
      if bool_decide (key ∈ float_keys) then Ok (VFloat f) else setitem_other key val
  | VInt n =>
      if bool_decide (key ∈ float_keys) then
        match float_of_Z n with
        | Some f => Ok (VFloat f)
        | None => setitem_other key val
        end
      else setitem_other key val
  | VStrList l =>
      if bool_decide (key = "font.sans-serif")
         && forallb (λ s, negb (bool_decide (s = EmptyString))) l
      then Ok (VStrList l) else setitem_other key val
  | VIntPair a b =>
      if bool_decide (key = "axes.formatter.limits") then Ok (VIntList [a; b])
      else setitem_other key val
  | VCycler prop vals =>
      if bool_decide (key = "axes.prop_cycle") && bool_decide (prop = "color")
         && forallb (λ s, hex_color s || bool_decide (s = "none")) vals
      then Ok val else setitem_other key val
  | _ => setitem_other key val
  end.

(** [rc[key] = val]: [RcParams.__setitem__] validates and then stores. *)
Definition RcParams_setitem (rc : loc) (key : string) (val : rcvalue) : M unit :=
  match validate key val with
  | Ok cval => rc_setitem rc key cval
  | Raise e => raise e
  end.

(** [mpl.cycler(color=cycle)] as a computation. *)
Definition mpl_cycler (cycle : list string) : M rcvalue :=
  match cycler_color cycle with
  | Some cyc => mret cyc
  | None => raise (ValueError "color")
  end.
End validation.

(** ** The module [namuplot.themes] *)

Abbreviation palette := (list (string * string)).

(** The frozen dataclass [Theme]: its three attributes cannot be rebound.
    The attribute [rc] is a reference to an [RcParams] object. *)
Module Theme.
Record t := mk {
  name : string;
  colors : palette;
  rc : loc
}.
End Theme.
Abbreviation Theme := Theme.t.

(** [colors[key]] *)
Definition colors_getitem (colors : palette) (key : string) : M string :=
  match PyDict.getitem colors key with
  | Some v => mret v
  | None => raise (KeyError key)
  end.

Definition font_sans_serif : list string :=
  [ "NanumBarunGothicOTF"; "NanumBarunGothic"; "NanumGothic";
    "Apple SD Gothic Neo"; "Malgun Gothic"; "DejaVu Sans" ].

Section translation.
Context {mpl : Validators}.

Definition _build_rcparams (colors : palette) : M loc :=
  rc ← RcParams_new ;
  text ← colors_getitem colors "text" ;
  bg ← colors_getitem colors "background" ;
  gray ← colors_getitem colors "gray" ;
  RcParams_setitem rc "figure.facecolor" (VStr bg) ;;
  RcParams_setitem rc "figure.edgecolor" (VStr bg) ;;
  RcParams_setitem rc "savefig.facecolor" (VStr bg) ;;
  RcParams_setitem rc "savefig.edgecolor" (VStr bg) ;;
  RcParams_setitem rc "axes.facecolor" (VStr bg) ;;
  RcParams_setitem rc "axes.edgecolor" (VStr text) ;;
  RcParams_setitem rc "axes.labelcolor" (VStr text) ;;
  RcParams_setitem rc "axes.titlecolor" (VStr text) ;;
  RcParams_setitem rc "text.color" (VStr text) ;;
  RcParams_setitem rc "xtick.color" (VStr text) ;;
  RcParams_setitem rc "ytick.color" (VStr text) ;;
  RcParams_setitem rc "axes.grid" (VBool true) ;;
  RcParams_setitem rc "grid.color" (VStr text) ;;
  RcParams_setitem rc "grid.alpha" (VFloat 0.30) ;;
  RcParams_setitem rc "grid.linestyle" (VStr "-") ;;
  RcParams_setitem rc "grid.linewidth" (VFloat 0.8) ;;
  RcParams_setitem rc "axes.spines.top" (VBool false) ;;
  RcParams_setitem rc "axes.spines.right" (VBool false) ;;
  RcParams_setitem rc "lines.linewidth" (VFloat 2.0) ;;
  RcParams_setitem rc "lines.markersize" (VInt 6) ;;
  a ← colors_getitem colors "a" ;
  b ← colors_getitem colors "b" ;
  c ← colors_getitem colors "c" ;
  d ← colors_getitem colors "d" ;
  e ← colors_getitem colors "e" ;
  let cycle := [a; b; c; d; e] in
  cyc ← mpl_cycler cycle ;
  RcParams_setitem rc "axes.prop_cycle" cyc ;;
  RcParams_setitem rc "font.family" (VStr "sans-serif") ;;
  RcParams_setitem rc "font.sans-serif" (VStrList font_sans_serif) ;;
  RcParams_setitem rc "legend.frameon" (VBool false) ;;
  RcParams_setitem rc "axes.unicode_minus" (VBool false) ;;
  RcParams_setitem rc "axes.formatter.useoffset" (VBool false) ;;
  RcParams_setitem rc "axes.formatter.limits" (VIntPair (-4) 5) ;;
  RcParams_setitem rc "errorbar.capsize" (VFloat 2.0) ;;
  RcParams_setitem rc "axes.unicode_minus" (VBool false) ;;
  RcParams_setitem rc "patch.edgecolor" (VStr gray) ;;
  RcParams_setitem rc "boxplot.flierprops.markeredgecolor" (VStr gray) ;;
  mret rc.

(** The loop of [load_themes] over [configs.items()], with the dictionary
    [themes] built so far. *)
Fixpoint load_loop (items : list (string * palette)) (themes : list (string * Theme))
    : M (list (string * Theme)) :=
  match items with
  | [] => mret themes
  | (name, colors) :: items' =>
      rc ← _build_rcparams colors ;
      load_loop items' (PyDict.setitem themes name (Theme.mk name colors rc))
  end.

Definition load_themes (configs : list (string * palette)) : M (list (string * Theme)) :=
  load_loop configs [].

End translation.

(** [_read_default_style]: the members of the top-level JSON object of the
    bundled style file and of each of its palettes, in file order, as the
    dictionaries [json.loads] returns. *)
Definition _read_default_style (style_json : list (string * palette))
    : list (string * palette) :=
  PyDict.of_pairs (prod_map id PyDict.of_pairs <$> style_json).

(** The result of [next(g)] that ends the iteration is [Ok None]
    ([StopIteration]); a generator that raised is finished. *)
Inductive generator :=
  | GenCreated (names : option (list string))
  | GenSuspended (rest : list string)
  | GenFinished.

(** How a consumer that asks for a bounded number of items leaves a
    generator. *)
Inductive outcome :=
  | Exhausted
  | Stopped (g : generator)
  | Failed (e : exn).

(** The operations of the module, as a caller combines them. *)
Inductive op :=
  | OpAvailable
  | OpGet (name : string)
  | OpUse (name : string)
  | OpIterUse (names : option (list string)) (items : nat)
  | OpContext (name : string) (body : list op)
  | OpToRcparams (name : string).

(** Induction on operations, with the bodies of [with] blocks. *)
Section op_induction.
Variable P : op → Prop.
Hypothesis Havailable : P OpAvailable.
Hypothesis Hget : ∀ name, P (OpGet name).
Hypothesis Huse : ∀ name, P (OpUse name).
Hypothesis Hiter : ∀ names items, P (OpIterUse names items).
Hypothesis Hcontext : ∀ name body, Forall P body → P (OpContext name body).
Hypothesis Hcopy : ∀ name, P (OpToRcparams name).

Fixpoint op_induction (o : op) : P o :=
  match o with
  | OpAvailable => Havailable
  | OpGet name => Hget name
  | OpUse name => Huse name
  | OpIterUse names items => Hiter names items
  | OpContext name body =>
      Hcontext name body
        ((fix bodies (l : list op) : Forall P l :=
            match l with
            | [] => @List.Forall_nil op P
            | o' :: l' => @List.Forall_cons op P o' l' (op_induction o') (bodies l')
            end) body)
  | OpToRcparams name => Hcopy name
  end.
End op_induction.

Section registry.
(** The module-level cache [_DEFAULT_THEMES]. *)
Variable _DEFAULT_THEMES : list (string * Theme).

Definition available : M (list string) :=
  mret (PyDict.keys _DEFAULT_THEMES).

Definition unknown_theme (name : string) : string :=
  "Unknown theme: " +:+ PyStr.repr name +:+ ". Available: "
    +:+ PyStr.repr_list (PyStr.sorted (PyDict.keys _DEFAULT_THEMES)).

Definition get (name : string) : M Theme :=
  match PyDict.getitem _DEFAULT_THEMES name with
  | Some theme => mret theme
  | None => raise (KeyError (unknown_theme name))
  end.

Definition use (name : string) : M Theme :=
  theme ← get name ;
  rcParams_update (Theme.rc theme) ;;
  mret theme.

(** Calling a generator function runs none of its body. *)
Definition iter_use (names : option (list string)) : M generator :=
  mret (GenCreated names).

(** One turn of [for name in names: yield name, use(name)]. *)
Definition iter_use_resume (rest : list string) (w : world)
    : world * generator * result (option (string * Theme)) :=
  match rest with
  | [] => (w, GenFinished, Ok None)
  | name :: rest' =>
      match use name w with
      | (w', Ok theme) => (w', GenSuspended rest', Ok (Some (name, theme)))
      | (w', Raise e) => (w', GenFinished, Raise e)
      end
  end.

(** [next(g)] *)
Definition next (g : generator) (w : world)
    : world * generator * result (option (string * Theme)) :=
  match g with
  | GenCreated None =>
      match available w with
      | (w', Ok names) => iter_use_resume names w'
      | (w', Raise e) => (w', GenFinished, Raise e)
      end
  | GenCreated (Some names) => iter_use_resume names w
  | GenSuspended rest => iter_use_resume rest w
  | GenFinished => (w, GenFinished, Ok None)
  end.

(** Callers. A consumer of a generator that takes at most [items] items
    and then drops the generator; it records every item together with the
    global configuration it sees when the item arrives. *)
Fixpoint drive (items : nat) (g : generator) (w : world)
    : world * list (string * Theme * rcmap) * outcome :=
  match items with
  | 0 => (w, [], Stopped g)
  | S items' =>
      match next g w with
      | (w', g', Ok (Some (name, theme))) =>
          let '(w'', seen, o) := drive items' g' w' in
          (w'', (name, theme, rcParams w') :: seen, o)
      | (w', _, Ok None) => (w', [], Exhausted)
      | (w', _, Raise e) => (w', [], Failed e)
      end
  end.

(** [with context(name): body]. The generator behind [@contextmanager]
    evaluates [get(name).rc] before it enters [mpl.rc_context]; an error
    of the body is thrown into it at the [yield]. *)
Definition context {A} (name : string) (body : M A) : M A :=
  theme ← get name ;
  rc_context (Theme.rc theme) body.

Definition to_rcparams (name : string) : M loc :=
  theme ← get name ;
  rc ← RcParams_new ;
  rc_update rc (Theme.rc theme) ;;
  mret rc.

(** Callers. [consume] is [drive] as a computation. *)
Definition consume (items : nat) (g : generator) : M unit :=
  λ w, match drive items g w with
       | (w', _, Failed e) => (w', Raise e)
       | (w', _, _) => (w', Ok tt)
       end.

Definition iter_use_take (names : option (list string)) (items : nat) : M unit :=
  g ← iter_use names ;
  consume items g.

(** One call of the module's interface; the body of a [with context(...)]
    block is a sequence of such calls that stops at the first error. *)
Fixpoint run_op (o : op) : M unit :=
  match o with
  | OpAvailable => available ;; mret tt
  | OpGet name => get name ;; mret tt
  | OpUse name => use name ;; mret tt
  | OpIterUse names items => iter_use_take names items
  | OpContext name body =>
      context name
        ((fix run_body (l : list op) : M unit :=
            match l with
            | [] => mret tt
            | o' :: l' => run_op o' ;; run_body l'
            end) body)
  | OpToRcparams name => to_rcparams name ;; mret tt
  end.

Fixpoint run_body (l : list op) : M unit :=
  match l with
  | [] => mret tt
  | o :: l' => run_op o ;; run_body l'
  end.

(** A caller that goes on after an operation failed. *)
Definition run_ops (l : list op) (w : world) : world :=
  foldl (λ w o, (run_op o w).1) w l.
End registry.

(** ** Notions used in the statements *)

(** The role keys a palette must have. *)
Definition required_keys : list string :=
  ["text"; "background"; "gray"; "a"; "b"; "c"; "d"; "e"].

Definition has_key (colors : palette) (key : string) : bool :=
  bool_decide (key ∈ PyDict.keys colors).

Definition complete (colors : palette) : bool :=
  forallb (has_key colors) required_keys.

Definition add_key (ks : list string) (k : string) : list string :=
  if decide (k ∈ ks) then ks else ks ++ [k].

(** The registry [load_themes] builds when no translation fails: the theme
    of the i-th item refers to the i-th object allocated from [next] on. *)
Fixpoint registry_of (items : list (string * palette)) (themes : list (string * Theme))
    (next : loc) : list (string * Theme) :=
  match items with
  | [] => themes
  | (name, colors) :: items' =>
      registry_of items' (PyDict.setitem themes name (Theme.mk name colors next)) (S next)
  end.

(** A registry whose themes carry their key as name and refer to objects
    of the heap. *)
Definition registry_wf (themes : list (string * Theme)) (w : world) : bool :=
  forallb (λ nt, bool_decide (Theme.name nt.2 = nt.1)
                 && bool_decide (Theme.rc nt.2 < length (heap w))) themes.

(** The configuration stored for [name] in the heap [h]. *)
Definition style_of (themes : list (string * Theme)) (h : list rcmap) (name : string)
    : rcmap :=
  match PyDict.getitem themes name with
  | Some theme => default ∅ (h !! Theme.rc theme)
  | None => ∅
  end.

(** The global configuration [g] after the themes of [names] have been
    merged into it one after the other. *)
Definition applied (themes : list (string * Theme)) (h : list rcmap) (g : rcmap)
    (names : list string) : rcmap :=
  foldl (λ g name, style_of themes h name ∪ g) g names.

(** For every name in turn: the name, its theme and the global
    configuration once this theme and the ones before it are merged in. *)
Fixpoint seen_of (themes : list (string * Theme)) (h : list rcmap) (g : rcmap)
    (names : list string) : list (string * Theme * rcmap) :=
  match names with
  | [] => []
  | name :: rest =>
      match PyDict.getitem themes name with
      | Some theme =>
          let g' := style_of themes h name ∪ g in
          (name, theme, g') :: seen_of themes h g' rest
      | None => []
      end
  end.

(** The first role key, in the order in which [_build_rcparams] reads
    them, that a palette lacks. *)
Definition first_missing (colors : palette) : option string :=
  List.find (λ key, negb (has_key colors key)) required_keys.

(** The configuration [_build_rcparams] builds for a palette, read off a
    run in an empty world. *)
Definition built_style {mpl : Validators} (colors : palette) : option rcmap :=
  match _build_rcparams colors (World ∅ []) with
  | (w', Ok rc) => heap w' !! rc
  | (_, Raise _) => None
  end.

(** What is stored under a key that also accepts ["auto"]. *)
Definition auto_or (s : string) (v : rcvalue) : rcvalue :=
  if bool_decide (s = "auto") then VStr "auto" else v.

(** The exception [_build_rcparams] raises for a palette, if it raises one,
    in the order in which the function reads the palette and assigns: the
    three lookups of text, background and gray; the validation of the
    background at [figure.facecolor] and of the text colour at
    [axes.edgecolor]; the lookups of the accents; the cycler; the validation
    of the gray at [patch.edgecolor]. *)
Definition build_error {mpl : Validators} (colors : palette) : option exn :=
  match PyDict.getitem colors "text" with
  | None => Some (KeyError "text")
  | Some text =>
  match PyDict.getitem colors "background" with
  | None => Some (KeyError "background")
  | Some bg =>
  match PyDict.getitem colors "gray" with
  | None => Some (KeyError "gray")
  | Some gray =>
  match validate_color bg with
  | None => Some (ValueError "figure.facecolor")
  | Some _ =>
  match validate_color text with
  | None => Some (ValueError "axes.edgecolor")
  | Some _ =>
  match PyDict.getitem colors "a" with
  | None => Some (KeyError "a")
  | Some a =>
  match PyDict.getitem colors "b" with
  | None => Some (KeyError "b")
  | Some b =>
  match PyDict.getitem colors "c" with
  | None => Some (KeyError "c")
  | Some c =>
  match PyDict.getitem colors "d" with
  | None => Some (KeyError "d")
  | Some d =>
  match PyDict.getitem colors "e" with
  | None => Some (KeyError "e")
  | Some e =>
  match cycler_color [a; b; c; d; e] with
  | None => Some (ValueError "color")
  | Some cyc =>
  match validate "axes.prop_cycle" cyc with
  | Raise err => Some err
  | Ok _ =>
  match validate_color gray with
  | None => Some (ValueError "patch.edgecolor")
  | Some _ => None
  end end end end end end end end end end end end end.

(** The exception for a palette whose first missing role key is [key]: the
    [KeyError] of the key, unless the key is an accent and the background or
    the text colour, which are assigned before the accents are read, is
    rejected. *)
Definition missing_error {mpl : Validators} (colors : palette) (key : string) : exn :=
  if bool_decide (key ∈ ["text"; "background"; "gray"]) then KeyError key
  else
    match PyDict.getitem colors "background" ≫= validate_color with
    | None => ValueError "figure.facecolor"
    | Some _ =>
        match PyDict.getitem colors "text" ≫= validate_color with
        | None => ValueError "axes.edgecolor"
        | Some _ => KeyError key
        end
    end.

(** The assignments of [_build_rcparams], in the order of the source, with
    the validated values of text ([tv]), background ([bgv]), gray ([grayv])
    and of the cycler ([cyc]). *)
Definition style_assignments (text bg : string) (tv bgv grayv cyc : rcvalue)
    : list (string * rcvalue) :=
  [ ("figure.facecolor", bgv); ("figure.edgecolor", bgv);
    ("savefig.facecolor", auto_or bg bgv); ("savefig.edgecolor", auto_or bg bgv);
    ("axes.facecolor", bgv); ("axes.edgecolor", tv); ("axes.labelcolor", tv);
    ("axes.titlecolor", auto_or text tv); ("text.color", tv);
    ("xtick.color", tv); ("ytick.color", tv);
    ("axes.grid", VBool true); ("grid.color", tv); ("grid.alpha", VFloat 0.30);
    ("grid.linestyle", VStr "-"); ("grid.linewidth", VFloat 0.8);
    ("axes.spines.top", VBool false); ("axes.spines.right", VBool false);
    ("lines.linewidth", VFloat 2.0); ("lines.markersize", VFloat 6.0);
    ("axes.prop_cycle", cyc);
    ("font.family", VStrList ["sans-serif"]);
    ("font.sans-serif", VStrList font_sans_serif);
    ("legend.frameon", VBool false); ("axes.unicode_minus", VBool false);
    ("axes.formatter.useoffset", VBool false);
    ("axes.formatter.limits", VIntList [-4; 5]%Z);
    ("errorbar.capsize", VFloat 2.0); ("axes.unicode_minus", VBool false);
    ("patch.edgecolor", grayv); ("boxplot.flierprops.markeredgecolor", grayv) ].

Definition expected_style (text bg : string) (tv bgv grayv cyc : rcvalue) : rcmap :=
  foldl (λ m kv, <[kv.1 := kv.2]> m) ∅ (style_assignments text bg tv bgv grayv cyc).


(** A palette whose eight role values are written as [#rrggbb] or
    [#rrggbbaa]. *)
Definition hex_palette (colors : palette) : bool :=
  forallb (λ key, match PyDict.getitem colors key with
                  | Some v => hex_color v
                  | None => false
                  end) required_keys.

(** The property keys [_build_rcparams] assigns. *)
Definition theme_keys : list string :=
  [ "figure.facecolor"; "figure.edgecolor"; "savefig.facecolor"; "savefig.edgecolor";
    "axes.facecolor"; "axes.edgecolor"; "axes.labelcolor"; "axes.titlecolor";
    "text.color"; "xtick.color"; "ytick.color";
    "axes.grid"; "grid.color"; "grid.alpha"; "grid.linestyle"; "grid.linewidth";
    "axes.spines.top"; "axes.spines.right";
    "lines.linewidth"; "lines.markersize"; "axes.prop_cycle";
    "font.family"; "font.sans-serif";
    "legend.frameon"; "axes.unicode_minus"; "axes.formatter.useoffset";
    "axes.formatter.limits"; "errorbar.capsize";
    "patch.edgecolor"; "boxplot.flierprops.markeredgecolor" ].

(** ** A sample style file, for closed instances

    Two themes with the member names the style file uses. *)

Definition sample_style : list (string * palette) :=
  [ ("light",
     [ ("text", "#222222"); ("background", "#ffffff"); ("gray", "#888888");
       ("a", "#1f77b4"); ("b", "#ff7f0e"); ("c", "#2ca02c"); ("d", "#d62728");
       ("e", "#9467bd") ]);
    ("dark",
     [ ("text", "#eeeeee"); ("background", "#111111"); ("gray", "#777777");
       ("a", "#8dd3c7"); ("b", "#ffffb3"); ("c", "#bebada"); ("d", "#fb8072");
       ("e", "#80b1d3") ]) ].

(** The world before the module is imported: matplotlib's defaults for two
    keys the themes set and one they do not. *)
Definition sample_world : world :=
  World (list_to_map
           [ ("figure.facecolor", VStr "white"); ("text.color", VStr "black");
             ("figure.dpi", VFloat 100.0) ])
        [].

(** Validators that accept nothing outside the part written out above. *)
Definition strict_validators : Validators :=
  {| color_other := λ _, None;
     cycler_other := λ _, None;
     setitem_other := λ key _, Raise (ValueError key) |}.

Definition sample_loaded : world * result (list (string * Theme)) :=
  load_themes (mpl:=strict_validators) (_read_default_style sample_style) sample_world.

Definition sample_themes : list (string * Theme) :=
  [ ("light", Theme.mk "light" (default [] (PyDict.getitem sample_style "light")) 0);
    ("dark", Theme.mk "dark" (default [] (PyDict.getitem sample_style "dark")) 1) ].

(** The world after the import. *)
Definition sample_world1 : world := Eval vm_compute in sample_loaded.1.

Definition broken_style : list (string * palette) :=
  [ ("light",
     [ ("text", "#222222"); ("background", "#ffffff"); ("gray", "#888888");
       ("a", "#1f77b4"); ("b", "#ff7f0e"); ("c", "#2ca02c"); ("d", "#d62728");
       ("e", "#9467bd") ]);
    ("dark",
     [ ("text", "#eeeeee"); ("background", "#111111");
       ("a", "#8dd3c7"); ("b", "#ffffb3"); ("c", "#bebada"); ("d", "#fb8072");
       ("e", "#80b1d3") ]) ].

(** A body that changes a key the theme sets and one it does not set, and
    then fails. *)
Definition sample_body : M unit :=
  λ w, (World (<["figure.facecolor" := VStr "red"]>
                 (<["figure.dpi" := VFloat 72.0]> (rcParams w))) (heap w),
        Raise (OtherError "RuntimeError" "boom")).

Definition sample_ops : list op :=
  [ OpUse "light";
    OpContext "dark" [OpToRcparams "light"; OpUse "light"; OpGet "unknown-theme"; OpUse "dark"];
    OpIterUse None 1;
    OpIterUse (Some ["dark"; "unknown-theme"; "light"]) 5;
    OpAvailable;
    OpToRcparams "dark" ].

(** The light palette of the sample file in another order, with a key the
    translation does not know. *)
Definition shuffled_light : palette :=
  [ ("e", "#9467bd"); ("note", "print"); ("gray", "#888888"); ("a", "#1f77b4");
    ("text", "#222222"); ("d", "#d62728"); ("b", "#ff7f0e");
    ("background", "#ffffff"); ("c", "#2ca02c") ].



(** A palette without accents whose background has a digit missing. *)
Definition accentless_palette : palette :=
  [ ("text", "#222222"); ("background", "#fffff"); ("gray", "#888888") ].


(** * Properties *)

(** ** Facts about dictionaries *)

Module PyDictFacts.
Import PyDict.
Section facts.
Context {V : Type}.
Implicit Types (d l : list (string * V)) (k : string) (v : V).

Lemma getitem_None d k : getitem d k = None ↔ k ∉ keys d.
Proof.
  unfold keys. induction d as [|[k' v] d IH]; csimpl.
  - split; [intros _; apply not_elem_of_nil | done].
  - rewrite not_elem_of_cons. case_decide; subst.
    + split; [done | intros [? _]; done].
    + rewrite IH. split; [by split | by intros [_ ?]].
Qed.

Lemma getitem_Some_elem d k v : getitem d k = Some v → (k, v) ∈ d.
Proof.
  induction d as [|[k' v'] d IH]; csimpl; [done|].
  case_decide; subst.
  - intros [= ->]. apply list_elem_of_here.
  - intros ?. apply list_elem_of_further; auto.
Qed.

Lemma getitem_is_Some d k : is_Some (getitem d k) ↔ k ∈ keys d.
Proof.
  rewrite <-not_eq_None_Some, getitem_None.
  split; [apply dec_stable | by intros ? ?].
Qed.

Lemma getitem_setitem_eq d k v : getitem (setitem d k v) k = Some v.
Proof.
  induction d as [|[k' v'] d IH]; csimpl.
  - by rewrite decide_True.
  - case_decide; csimpl; [by rewrite decide_True | by rewrite decide_False].
Qed.

Lemma getitem_setitem_ne d k k' v :
  k ≠ k' → getitem (setitem d k v) k' = getitem d k'.
Proof.
  intros Hne. induction d as [|[k0 v0] d IH]; csimpl.
  - by rewrite decide_False.
  - destruct (decide (k0 = k)) as [->|]; csimpl.
    + by rewrite !decide_False.
    + by rewrite IH.
Qed.

Lemma keys_setitem_old d k v : k ∈ keys d → keys (setitem d k v) = keys d.
Proof.
  unfold keys. induction d as [|[k0 v0] d IH]; csimpl.
  - by intros ?%elem_of_nil.
  - intros [->|Hin]%elem_of_cons.
    + by rewrite decide_True.
    + case_decide; [done|]. csimpl. by rewrite IH.
Qed.

Lemma keys_setitem_new d k v : k ∉ keys d → keys (setitem d k v) = keys d ++ [k].
Proof.
  unfold keys. induction d as [|[k0 v0] d IH]; csimpl; [done|].
  intros [? ?]%not_elem_of_cons.
  rewrite decide_False by done. csimpl. by rewrite IH.
Qed.

Lemma keys_setitem_elem d k v k' :
  k' ∈ keys (setitem d k v) ↔ k' = k ∨ k' ∈ keys d.
Proof.
  destruct (decide (k ∈ keys d)) as [Hin|Hnin].
  - rewrite keys_setitem_old by done. naive_solver.
  - rewrite keys_setitem_new by done. rewrite elem_of_app, list_elem_of_singleton.
    naive_solver.
Qed.

Lemma keys_setitem_NoDup d k v : NoDup (keys d) → NoDup (keys (setitem d k v)).
Proof.
  intros Hnd. destruct (decide (k ∈ keys d)) as [Hin|Hnin].
  - by rewrite keys_setitem_old.
  - rewrite keys_setitem_new by done. apply NoDup_app. split_and!; [done| |].
    + intros x Hx ->%list_elem_of_singleton. done.
    + apply NoDup_singleton.
Qed.

Lemma foldl_setitem_NoDup l d :
  NoDup (keys d) → NoDup (keys (foldl (λ d kv, setitem d kv.1 kv.2) d l)).
Proof.
  revert d. induction l as [|[k v] l IH]; intros d Hd; csimpl; [done|].
  apply IH. by apply keys_setitem_NoDup.
Qed.

Lemma foldl_setitem_elem l d k :
  k ∈ keys (foldl (λ d kv, setitem d kv.1 kv.2) d l) ↔ k ∈ keys d ∨ k ∈ l.*1.
Proof.
  revert d. induction l as [|[k0 v] l IH]; intros d; csimpl.
  - rewrite elem_of_nil. naive_solver.
  - rewrite IH, keys_setitem_elem, elem_of_cons. naive_solver.
Qed.

Lemma foldl_setitem_fresh l d :
  NoDup (keys d ++ l.*1) →
  foldl (λ d kv, setitem d kv.1 kv.2) d l = d ++ l.
Proof.
  revert d. induction l as [|[k v] l IH]; intros d Hnd; csimpl.
  - by rewrite app_nil_r.
  - csimpl in Hnd. assert (k ∉ keys d) as Hk.
    { apply NoDup_app in Hnd as (_ & Hd & _). intros Hin. apply (Hd _ Hin). left. }
    assert (setitem d k v = d ++ [(k, v)]) as ->.
    { clear -Hk. unfold keys in Hk. induction d as [|[k0 v0] d IHd]; csimpl; [done|].
      csimpl in Hk. apply not_elem_of_cons in Hk as [? ?].
      rewrite decide_False by done. by rewrite IHd. }
    rewrite IH.
    + by rewrite <-app_assoc.
    + unfold keys in *. rewrite fmap_app. csimpl. by rewrite <-app_assoc.
Qed.

Lemma of_pairs_NoDup l : NoDup (keys (of_pairs l)).
Proof. apply foldl_setitem_NoDup. constructor. Qed.

Lemma of_pairs_elem l k : k ∈ keys (of_pairs l) ↔ k ∈ l.*1.
Proof.
  unfold of_pairs. rewrite foldl_setitem_elem. csimpl. rewrite elem_of_nil. naive_solver.
Qed.

Lemma of_pairs_fresh l : NoDup l.*1 → of_pairs l = l.
Proof. intros Hnd. unfold of_pairs. by rewrite foldl_setitem_fresh. Qed.

End facts.
End PyDictFacts.

(** ** Stepping through computations *)

Section steps.
Context {A B : Type}.

Lemma bind_Ok (c : M A) (k : A → M B) w w' a :
  c w = (w', Ok a) → (c ≫= k) w = k a w'.
Proof. unfold mbind, M_bind. by intros ->. Qed.

Lemma bind_Raise (c : M A) (k : A → M B) w w' e :
  c w = (w', Raise e) → (c ≫= k) w = (w', Raise e).
Proof. unfold mbind, M_bind. by intros ->. Qed.
End steps.

Lemma alter_last {T} (f : T → T) (h : list T) (m : T) :
  alter f (length h) (h ++ [m]) = h ++ [f m].
Proof. induction h as [|x h IH]; csimpl; [done|]. by rewrite IH. Qed.

Lemma new_then {B} (k : loc → M B) w :
  (RcParams_new ≫= k) w = k (length (heap w)) (World (rcParams w) (heap w ++ [∅])).
Proof. by apply bind_Ok. Qed.

Lemma setitem_then {B} (c : M B) g h m key val :
  (rc_setitem (length h) key val ≫= λ _, c) (World g (h ++ [m]))
  = c (World g (h ++ [<[key:=val]> m])).
Proof.
  erewrite bind_Ok; [done|]. unfold rc_setitem. cbn [heap rcParams]. by rewrite alter_last.
Qed.

Lemma colors_getitem_then {B} (k : string → M B) colors key v w :
  PyDict.getitem colors key = Some v →
  (colors_getitem colors key ≫= k) w = k v w.
Proof. intros H. apply bind_Ok. unfold colors_getitem. by rewrite H. Qed.

Lemma colors_getitem_missing {B} (k : string → M B) colors key w :
  PyDict.getitem colors key = None →
  (colors_getitem colors key ≫= k) w = (w, Raise (KeyError key)).
Proof. intros H. apply bind_Raise. unfold colors_getitem. by rewrite H. Qed.

Lemma deref_last g h m : deref (World g (h ++ [m])) (length h) = m.
Proof.
  unfold deref. simpl. rewrite lookup_app_r by lia.
  by replace (length h - length h) with 0 by lia.
Qed.

(** ** Validation *)

Section validation_facts.
Context {mpl : Validators}.

Lemma setitem_Ok_then {B} (c : M B) g h m key val v :
  validate key val = Ok v →
  (RcParams_setitem (length h) key val ≫= λ _, c) (World g (h ++ [m]))
  = c (World g (h ++ [<[key:=v]> m])).
Proof.
  intros Hv. unfold RcParams_setitem. rewrite Hv. apply setitem_then.
Qed.

Lemma setitem_Raise_then {B} (c : M B) w key val rc e :
  validate key val = Raise e →
  (RcParams_setitem rc key val ≫= λ _, c) w = (w, Raise e).
Proof.
  intros Hv. apply bind_Raise. unfold RcParams_setitem. by rewrite Hv.
Qed.

Lemma cycler_Ok_then {B} (k : rcvalue → M B) cycle cyc w :
  cycler_color cycle = Some cyc → (mpl_cycler cycle ≫= k) w = k cyc w.
Proof. intros Hc. apply bind_Ok. unfold mpl_cycler. by rewrite Hc. Qed.

Lemma cycler_None_then {B} (k : rcvalue → M B) cycle w :
  cycler_color cycle = None →
  (mpl_cycler cycle ≫= k) w = (w, Raise (ValueError "color")).
Proof. intros Hc. apply bind_Raise. unfold mpl_cycler. by rewrite Hc. Qed.

Lemma validate_color_key key s v :
  bool_decide (key ∈ color_keys) = true →
  validate_color s = Some v → validate key (VStr s) = Ok v.
Proof. intros Hk Hv. unfold validate. by rewrite Hk, Hv. Qed.

Lemma validate_color_key_None key s :
  bool_decide (key ∈ color_keys) = true →
  validate_color s = None → validate key (VStr s) = Raise (ValueError key).
Proof. intros Hk Hv. unfold validate. by rewrite Hk, Hv. Qed.

Lemma validate_or_auto_key key s v :
  bool_decide (key ∈ color_keys) = false →
  bool_decide (key ∈ color_or_auto_keys) = true →
  validate_color s = Some v → validate key (VStr s) = Ok (auto_or s v).
Proof.
  intros Hk Hk' Hv. unfold validate, validate_color_or_auto, auto_or.
  rewrite Hk, Hk', Hv. by destruct (bool_decide (s = "auto")).
Qed.

(** Colours written as [#rrggbb] or [#rrggbbaa] are stored as they are. *)
Lemma hex_color_decided s :
  hex_color s = true →
  color_decided s = true ∧ validate_color_decided s = Some s ∧ s ≠ "auto".
Proof.
  intros Hhex.
  assert (∃ d, s = String "#" d) as [d ->].
  { unfold hex_color, hash_hex in Hhex.
    destruct s as [|[[] [] [] [] [] [] [] []] d]; try done. by exists d. }
  assert (is_none (String "#" d) = false) as Hnone.
  { apply bool_decide_eq_false. simpl. discriminate. }
  assert (bare_hex (String "#" d) = false) as Hbare.
  { unfold bare_hex. simpl. by rewrite andb_false_r. }
  assert (hash_hex 3 (String "#" d) || hash_hex 4 (String "#" d) = false) as Hshort.
  { unfold hex_color, hash_hex in *.
    destruct (all_hex d); simpl in *; [|done].
    destruct (String.length d) as [|[|[|[|[|[|[|[|[|n]]]]]]]]]; simpl in *; done. }
  split_and!.
  - unfold color_decided. rewrite Hnone, Hbare, Hshort. done.
  - unfold validate_color_decided. by rewrite Hnone, Hbare, Hhex.
  - discriminate.
Qed.

Lemma hex_color_valid s : hex_color s = true → validate_color s = Some (VStr s).
Proof.
  intros (Hd & Hv & _)%hex_color_decided. unfold validate_color. by rewrite Hd, Hv.
Qed.

Lemma hex_color_auto_or s v : hex_color s = true → auto_or s v = v.
Proof.
  intros (_ & _ & Hauto)%hex_color_decided. unfold auto_or. by rewrite bool_decide_eq_false_2.
Qed.

Lemma hex_cycler cycle :
  forallb hex_color cycle = true →
  cycler_color cycle = Some (VCycler "color" cycle)
  ∧ validate "axes.prop_cycle" (VCycler "color" cycle) = Ok (VCycler "color" cycle).
Proof.
  intros Hall. split.
  - unfold cycler_color.
    assert (forallb color_decided cycle = true) as ->.
    { induction cycle as [|s cycle IH]; [done|]. simpl in *.
      apply andb_true_iff in Hall as [(-> & _)%hex_color_decided Hall]. by rewrite IH. }
    assert (mapM validate_color_decided cycle = Some cycle) as ->; [|done].
    apply mapM_Some. induction cycle as [|s cycle IH]; [constructor|]. simpl in Hall.
    apply andb_true_iff in Hall as [(_ & Hv & _)%hex_color_decided Hall].
    constructor; auto.
  - unfold validate.
    assert (forallb (λ s, hex_color s || bool_decide (s = "none")) cycle = true) as ->; [|done].
    induction cycle as [|s cycle IH]; [done|]. simpl in *.
    apply andb_true_iff in Hall as [-> Hall]. by rewrite IH.
Qed.
End validation_facts.

(** ** The translation of a palette *)

Lemma has_key_true colors key :
  has_key colors key = true → ∃ v, PyDict.getitem colors key = Some v.
Proof.
  unfold has_key. intros H%bool_decide_eq_true. by apply PyDictFacts.getitem_is_Some in H.
Qed.


Lemma has_key_false colors key :
  has_key colors key = false → PyDict.getitem colors key = None.
Proof.
  unfold has_key. intros H%bool_decide_eq_false. by apply PyDictFacts.getitem_None.
Qed.


Lemma complete_inv colors :
  complete colors = true →
  ∃ text bg gray a b c d e,
    PyDict.getitem colors "text" = Some text ∧
    PyDict.getitem colors "background" = Some bg ∧
    PyDict.getitem colors "gray" = Some gray ∧
    PyDict.getitem colors "a" = Some a ∧
    PyDict.getitem colors "b" = Some b ∧
    PyDict.getitem colors "c" = Some c ∧
    PyDict.getitem colors "d" = Some d ∧
    PyDict.getitem colors "e" = Some e.
Proof.
  unfold complete, required_keys. cbn [forallb]. rewrite !andb_true_iff.
  intros ([? ?]%has_key_true & [? ?]%has_key_true & [? ?]%has_key_true &
          [? ?]%has_key_true & [? ?]%has_key_true & [? ?]%has_key_true &
          [? ?]%has_key_true & [? ?]%has_key_true & _).
  naive_solver.
Qed.

Ltac solve_valid :=
  first
    [ eassumption
    | reflexivity
    | eapply validate_color_key; [reflexivity | eassumption]
    | eapply validate_or_auto_key; [reflexivity | reflexivity | eassumption] ].

Ltac solve_invalid :=
  first
    [ eassumption
    | eapply validate_color_key_None; [reflexivity | eassumption] ].

(** Runs [_build_rcparams] as far as the lookups and validations in the
    context decide it. *)
Ltac build_run :=
  unfold _build_rcparams; rewrite new_then;
  repeat first
    [ erewrite colors_getitem_then by eassumption; cbv beta zeta
    | erewrite colors_getitem_missing by eassumption
    | erewrite setitem_Ok_then by solve_valid
    | erewrite setitem_Raise_then by solve_invalid
    | erewrite cycler_Ok_then by eassumption; cbv beta
    | erewrite cycler_None_then by eassumption ].

Section translation_facts.
Context {mpl : Validators}.

(** The run of [_build_rcparams] in any world: it raises the exception
    [build_error] names, or returns the new object with the validated
    values. The object it allocated is in the heap either way. *)
Lemma build_rcparams_cases colors :
  match build_error colors with
  | Some err =>
      ∃ style, ∀ w,
        _build_rcparams colors w
        = (World (rcParams w) (heap w ++ [style]), Raise err)
  | None =>
      ∃ text bg gray a b c d e tv bgv grayv cyc0 cyc,
        PyDict.getitem colors "text" = Some text
        ∧ PyDict.getitem colors "background" = Some bg
        ∧ PyDict.getitem colors "gray" = Some gray
        ∧ PyDict.getitem colors "a" = Some a
        ∧ PyDict.getitem colors "b" = Some b
        ∧ PyDict.getitem colors "c" = Some c
        ∧ PyDict.getitem colors "d" = Some d
        ∧ PyDict.getitem colors "e" = Some e
        ∧ validate_color text = Some tv
        ∧ validate_color bg = Some bgv
        ∧ validate_color gray = Some grayv
        ∧ cycler_color [a; b; c; d; e] = Some cyc0
        ∧ validate "axes.prop_cycle" cyc0 = Ok cyc
        ∧ ∀ w, _build_rcparams colors w
               = (World (rcParams w)
                    (heap w ++ [expected_style text bg tv bgv grayv cyc]),
                  Ok (length (heap w)))
  end.
Proof.
  unfold build_error.
  destruct (PyDict.getitem colors "text") as [text|] eqn:Ht;
    [|eexists; intros w; build_run; reflexivity].
  destruct (PyDict.getitem colors "background") as [bg|] eqn:Hbg;
    [|eexists; intros w; build_run; reflexivity].
  destruct (PyDict.getitem colors "gray") as [gray|] eqn:Hgray;
    [|eexists; intros w; build_run; reflexivity].
  destruct (validate_color bg) as [bgv|] eqn:Hbgv;
    [|eexists; intros w; build_run; reflexivity].
  destruct (validate_color text) as [tv|] eqn:Htv;
    [|eexists; intros w; build_run; reflexivity].
  destruct (PyDict.getitem colors "a") as [a|] eqn:Ha;
    [|eexists; intros w; build_run; reflexivity].
  destruct (PyDict.getitem colors "b") as [b|] eqn:Hb;
    [|eexists; intros w; build_run; reflexivity].
  destruct (PyDict.getitem colors "c") as [c|] eqn:Hc;
    [|eexists; intros w; build_run; reflexivity].
  destruct (PyDict.getitem colors "d") as [d|] eqn:Hd;
    [|eexists; intros w; build_run; reflexivity].
  destruct (PyDict.getitem colors "e") as [e|] eqn:He;
    [|eexists; intros w; build_run; reflexivity].
  destruct (cycler_color [a; b; c; d; e]) as [cyc0|] eqn:Hcyc0;
    [|eexists; intros w; build_run; reflexivity].
  destruct (validate "axes.prop_cycle" cyc0) as [cyc|err] eqn:Hcyc;
    [|eexists; intros w; build_run; reflexivity].
  destruct (validate_color gray) as [grayv|] eqn:Hgrayv;
    [|eexists; intros w; build_run; reflexivity].
  exists text, bg, gray, a, b, c, d, e, tv, bgv, grayv, cyc0, cyc.
  split_and!; [done..|]. intros w. build_run. reflexivity.
Qed.
End translation_facts.

Section translation_results.
Context {mpl : Validators}.

Lemma build_rcparams_Ok colors :
  build_error colors = None →
  ∃ style,
    built_style colors = Some style
    ∧ ∀ w, _build_rcparams colors w
           = (World (rcParams w) (heap w ++ [style]), Ok (length (heap w))).
Proof.
  intros Herr. pose proof (build_rcparams_cases colors) as Hcases.
  rewrite Herr in Hcases.
  destruct Hcases as (text & bg & gray & a & b & c & d & e & tv & bgv & grayv & cyc0 & cyc
                      & _ & _ & _ & _ & _ & _ & _ & _ & _ & _ & _ & _ & _ & Hrun).
  eexists. split; [|exact Hrun]. unfold built_style. by rewrite Hrun.
Qed.

Lemma build_rcparams_Raise colors err :
  build_error colors = Some err →
  built_style colors = None
  ∧ ∃ style, ∀ w, _build_rcparams colors w
                  = (World (rcParams w) (heap w ++ [style]), Raise err).
Proof.
  intros Herr. pose proof (build_rcparams_cases colors) as Hcases.
  rewrite Herr in Hcases. destruct Hcases as [style Hrun].
  split; [|by exists style]. unfold built_style. by rewrite Hrun.
Qed.

Lemma built_style_Some colors style :
  built_style colors = Some style →
  build_error colors = None
  ∧ ∀ w, _build_rcparams colors w
         = (World (rcParams w) (heap w ++ [style]), Ok (length (heap w))).
Proof.
  intros Hstyle. destruct (build_error colors) as [err|] eqn:Herr.
  - destruct (build_rcparams_Raise colors err Herr) as [Hnone _]. congruence.
  - destruct (build_rcparams_Ok colors Herr) as (style' & Hstyle' & Hrun).
    split; [done|]. by simplify_eq.
Qed.


(** A run that returns shows that nothing was rejected. *)
Lemma build_rcparams_Ok_inv colors w w' rc :
  _build_rcparams colors w = (w', Ok rc) → build_error colors = None.
Proof.
  intros Hrun. destruct (build_error colors) as [err|] eqn:Herr; [|done].
  destruct (build_rcparams_Raise colors err Herr) as (_ & style & Hraise).
  rewrite Hraise in Hrun. congruence.
Qed.


Lemma hex_palette_inv colors :
  hex_palette colors = true →
  ∃ text bg gray a b c d e,
    PyDict.getitem colors "text" = Some text
    ∧ PyDict.getitem colors "background" = Some bg
    ∧ PyDict.getitem colors "gray" = Some gray
    ∧ PyDict.getitem colors "a" = Some a
    ∧ PyDict.getitem colors "b" = Some b
    ∧ PyDict.getitem colors "c" = Some c
    ∧ PyDict.getitem colors "d" = Some d
    ∧ PyDict.getitem colors "e" = Some e
    ∧ forallb hex_color [text; bg; gray; a; b; c; d; e] = true.
Proof.
  unfold hex_palette, required_keys. cbn [forallb]. rewrite !andb_true_iff.
  destruct (PyDict.getitem colors "text") as [text|]; [|naive_solver].
  destruct (PyDict.getitem colors "background") as [bg|]; [|naive_solver].
  destruct (PyDict.getitem colors "gray") as [gray|]; [|naive_solver].
  destruct (PyDict.getitem colors "a") as [a|]; [|naive_solver].
  destruct (PyDict.getitem colors "b") as [b|]; [|naive_solver].
  destruct (PyDict.getitem colors "c") as [c|]; [|naive_solver].
  destruct (PyDict.getitem colors "d") as [d|]; [|naive_solver].
  destruct (PyDict.getitem colors "e") as [e|]; [|naive_solver].
  intros (? & ? & ? & ? & ? & ? & ? & ? & _).
  exists text, bg, gray, a, b, c, d, e. split_and!; [done..|].
  rewrite !andb_true_iff. done.
Qed.

(** A palette of [#rrggbb] colours is translated, with its own strings as
    the stored colours. *)
Lemma hex_palette_built colors :
  hex_palette colors = true →
  ∃ text bg gray a b c d e,
    PyDict.getitem colors "text" = Some text
    ∧ PyDict.getitem colors "background" = Some bg
    ∧ PyDict.getitem colors "gray" = Some gray
    ∧ PyDict.getitem colors "a" = Some a
    ∧ PyDict.getitem colors "b" = Some b
    ∧ PyDict.getitem colors "c" = Some c
    ∧ PyDict.getitem colors "d" = Some d
    ∧ PyDict.getitem colors "e" = Some e
    ∧ build_error colors = None
    ∧ built_style colors
      = Some (expected_style text bg (VStr text) (VStr bg) (VStr gray)
                (VCycler "color" [a; b; c; d; e])).
Proof.
  intros (text & bg & gray & a & b & c & d & e &
          Ht & Hbg & Hgray & Ha & Hb & Hc & Hd & He & Hhex)%hex_palette_inv.
  cbn [forallb] in Hhex. rewrite !andb_true_iff in Hhex.
  destruct Hhex as (Htx & Hbgx & Hgrayx & Hax & Hbx & Hcx & Hdx & Hex & _).
  assert (forallb hex_color [a; b; c; d; e] = true) as Hcycle
    by (cbn [forallb]; by rewrite Hax, Hbx, Hcx, Hdx, Hex).
  destruct (hex_cycler [a; b; c; d; e] Hcycle) as [Hcyc0 Hcyc].
  assert (build_error colors = None) as Herr.
  { unfold build_error. rewrite Ht, Hbg, Hgray, Ha, Hb, Hc, Hd, He.
    by rewrite !hex_color_valid, Hcyc0, Hcyc by done. }
  exists text, bg, gray, a, b, c, d, e. split_and!; [done..|].
  pose proof (build_rcparams_cases colors) as Hcases. rewrite Herr in Hcases.
  destruct Hcases as (text' & bg' & gray' & a' & b' & c' & d' & e' & tv & bgv & grayv
                      & cyc0 & cyc & Ht' & Hbg' & Hgray' & Ha' & Hb' & Hc' & Hd' & He'
                      & Htv & Hbgv & Hgrayv & Hcyc0' & Hcyc' & Hrun).
  assert (text' = text) as -> by congruence. assert (bg' = bg) as -> by congruence.
  assert (gray' = gray) as -> by congruence. assert (a' = a) as -> by congruence.
  assert (b' = b) as -> by congruence. assert (c' = c) as -> by congruence.
  assert (d' = d) as -> by congruence. assert (e' = e) as -> by congruence.
  rewrite hex_color_valid in Htv, Hbgv, Hgrayv by done.
  rewrite Hcyc0 in Hcyc0'. simplify_eq. rewrite Hcyc in Hcyc'. simplify_eq.
  unfold built_style. by rewrite Hrun.
Qed.
End translation_results.

(** ** The translated settings *)

Section translation_style.
Context {mpl : Validators}.

(** What a run of the translation that returns has built. *)
Lemma build_rcparams_Ok_style colors w w' rc :
  _build_rcparams colors w = (w', Ok rc) →
  ∃ text bg gray a b c d e tv bgv grayv cyc0 cyc,
    PyDict.getitem colors "text" = Some text
    ∧ PyDict.getitem colors "background" = Some bg
    ∧ PyDict.getitem colors "gray" = Some gray
    ∧ PyDict.getitem colors "a" = Some a
    ∧ PyDict.getitem colors "b" = Some b
    ∧ PyDict.getitem colors "c" = Some c
    ∧ PyDict.getitem colors "d" = Some d
    ∧ PyDict.getitem colors "e" = Some e
    ∧ validate_color text = Some tv
    ∧ validate_color bg = Some bgv
    ∧ validate_color gray = Some grayv
    ∧ cycler_color [a; b; c; d; e] = Some cyc0
    ∧ validate "axes.prop_cycle" cyc0 = Ok cyc
    ∧ rc = length (heap w)
    ∧ w' = World (rcParams w) (heap w ++ [expected_style text bg tv bgv grayv cyc]).
Proof.
  intros Hrun. pose proof (build_rcparams_Ok_inv colors w w' rc Hrun) as Herr.
  pose proof (build_rcparams_cases colors) as Hcases. rewrite Herr in Hcases.
  destruct Hcases as (text & bg & gray & a & b & c & d & e & tv & bgv & grayv & cyc0 & cyc
                      & Ht & Hbg & Hgray & Ha & Hb & Hc & Hd & He
                      & Htv & Hbgv & Hgrayv & Hcyc0 & Hcyc & Hrun').
  rewrite Hrun' in Hrun.
  exists text, bg, gray, a, b, c, d, e, tv, bgv, grayv, cyc0, cyc.
  split_and!; [done..| |]; congruence.
Qed.

(** The run of the translation on a palette that is accepted. *)
Lemma build_rcparams_accepted colors :
  build_error colors = None →
  ∃ text bg gray a b c d e tv bgv grayv cyc0 cyc,
    PyDict.getitem colors "text" = Some text
    ∧ PyDict.getitem colors "background" = Some bg
    ∧ PyDict.getitem colors "gray" = Some gray
    ∧ PyDict.getitem colors "a" = Some a
    ∧ PyDict.getitem colors "b" = Some b
    ∧ PyDict.getitem colors "c" = Some c
    ∧ PyDict.getitem colors "d" = Some d
    ∧ PyDict.getitem colors "e" = Some e
    ∧ validate_color text = Some tv
    ∧ validate_color bg = Some bgv
    ∧ validate_color gray = Some grayv
    ∧ cycler_color [a; b; c; d; e] = Some cyc0
    ∧ validate "axes.prop_cycle" cyc0 = Ok cyc
    ∧ ∀ w, _build_rcparams colors w
           = (World (rcParams w) (heap w ++ [expected_style text bg tv bgv grayv cyc]),
              Ok (length (heap w))).
Proof.
  intros Herr. pose proof (build_rcparams_cases colors) as Hcases.
  by rewrite Herr in Hcases.
Qed.

Lemma expected_style_dom text bg tv bgv grayv cyc :
  dom (expected_style text bg tv bgv grayv cyc) = list_to_set theme_keys.
Proof. apply (bool_decide_unpack _). vm_compute. exact I. Qed.


Lemma built_style_dom colors style :
  built_style colors = Some style → dom style = list_to_set theme_keys.
Proof.
  intros Hstyle. destruct (built_style_Some colors style Hstyle) as [_ Hrun].
  destruct (build_rcparams_Ok_style colors (World ∅ []) _ _ (Hrun (World ∅ [])))
    as (text & bg & gray & a & b & c & d & e & tv & bgv & grayv & cyc0 & cyc
        & _ & _ & _ & _ & _ & _ & _ & _ & _ & _ & _ & _ & _ & _ & Hw).
  cbn [heap rcParams app] in Hw. simplify_eq. apply expected_style_dom.
Qed.
End translation_style.




(** ** Key order of dictionaries built by successive assignments *)

Lemma keys_setitem {V} (d : list (string * V)) k v :
  PyDict.keys (PyDict.setitem d k v) = add_key (PyDict.keys d) k.
Proof.
  unfold add_key. case_decide.
  - by apply PyDictFacts.keys_setitem_old.
  - by apply PyDictFacts.keys_setitem_new.
Qed.

Lemma keys_of_pairs_from {V} (l : list (string * V)) d :
  PyDict.keys (foldl (λ d kv, PyDict.setitem d kv.1 kv.2) d l)
  = foldl add_key (PyDict.keys d) l.*1.
Proof.
  revert d. induction l as [|[k v] l IH]; intros d; csimpl; [done|].
  by rewrite IH, keys_setitem.
Qed.

Lemma keys_of_pairs {V} (l : list (string * V)) :
  PyDict.keys (PyDict.of_pairs l) = foldl add_key [] l.*1.
Proof. apply (keys_of_pairs_from l []). Qed.

Lemma add_keys_NoDup ks acc : NoDup (acc ++ ks) → foldl add_key acc ks = acc ++ ks.
Proof.
  revert acc. induction ks as [|k ks IH]; intros acc Hnd; simpl.
  - by rewrite app_nil_r.
  - assert (k ∉ acc) as Hk.
    { apply NoDup_app in Hnd as (_ & Hd & _). intros Hin. apply (Hd _ Hin). left. }
    unfold add_key at 2. rewrite decide_False by done.
    rewrite IH; rewrite <-app_assoc; done.
Qed.

Lemma add_keys_sublist ks acc : ∃ ks', foldl add_key acc ks = acc ++ ks' ∧ ks' `sublist_of` ks.
Proof.
  revert acc. induction ks as [|k ks IH]; intros acc; simpl.
  - exists []. by rewrite app_nil_r.
  - unfold add_key at 2. case_decide.
    + destruct (IH acc) as (ks' & -> & Hsub). exists ks'. split; [done|].
      by apply sublist_cons.
    + destruct (IH (acc ++ [k])) as (ks' & -> & Hsub). exists (k :: ks').
      rewrite <-app_assoc. split; [done|]. by apply sublist_skip.
Qed.

(** ** Loading the registry *)

Section loading.
Context {mpl : Validators}.

(** The loop over palettes that are all accepted: one object for each, in
    order, holding what the translation builds for it. *)
Lemma load_loop_accepted items :
  Forall (λ nc, build_error nc.2 = None) items →
  ∀ themes w, ∃ objs,
    length objs = length items
    ∧ Forall2 (λ nc style, built_style nc.2 = Some style) items objs
    ∧ load_loop items themes w
      = (World (rcParams w) (heap w ++ objs), Ok (registry_of items themes (length (heap w)))).
Proof.
  induction 1 as [|[name colors] items Hc _ IH]; intros themes w; simpl.
  - exists []. rewrite app_nil_r. split_and!; [done | constructor | by destruct w].
  - destruct (build_rcparams_Ok colors Hc) as (style & Hstyle & Hb).
    erewrite bind_Ok by apply Hb.
    destruct (IH (PyDict.setitem themes name (Theme.mk name colors (length (heap w))))
                 (World (rcParams w) (heap w ++ [style]))) as (objs & Hlen & Hobjs & ->).
    exists (style :: objs). cbn [heap rcParams]. rewrite length_app, <-app_assoc. simpl.
    split_and!; [by rewrite Hlen | by constructor |]. do 3 f_equal. lia.
Qed.

(** The loop up to the first palette that is rejected. *)
Lemma load_loop_prefix good :
  Forall (λ nc, build_error nc.2 = None) good →
  ∀ themes w, ∃ objs themes',
    length objs = length good
    ∧ ∀ items, load_loop (good ++ items) themes w
               = load_loop items themes' (World (rcParams w) (heap w ++ objs)).
Proof.
  induction 1 as [|[name colors] good Hc _ IH]; intros themes w.
  - exists [], themes. rewrite app_nil_r. split; [done|]. by destruct w.
  - destruct (build_rcparams_Ok colors Hc) as (style & _ & Hb).
    destruct (IH (PyDict.setitem themes name (Theme.mk name colors (length (heap w))))
                 (World (rcParams w) (heap w ++ [style]))) as (objs & themes' & Hlen & Hrun).
    exists (style :: objs), themes'. split; [simpl; by rewrite Hlen|].
    intros items. cbn [app load_loop]. erewrite bind_Ok by apply Hb.
    rewrite Hrun. cbn [heap rcParams]. by rewrite <-app_assoc.
Qed.

Lemma load_loop_first_rejected good name colors err :
  Forall (λ nc, build_error nc.2 = None) good →
  build_error colors = Some err →
  ∀ themes w, ∃ objs,
    length objs = S (length good)
    ∧ ∀ rest, load_loop (good ++ (name, colors) :: rest) themes w
              = (World (rcParams w) (heap w ++ objs), Raise err).
Proof.
  intros Hgood Herr themes w.
  destruct (load_loop_prefix good Hgood themes w) as (objs & themes' & Hlen & Hrun).
  destruct (build_rcparams_Raise colors err Herr) as (_ & style & Hb).
  exists (objs ++ [style]). split; [rewrite length_app, Hlen; simpl; lia|].
  intros rest. rewrite Hrun. cbn [load_loop].
  erewrite bind_Raise by apply Hb. cbn [heap rcParams]. by rewrite <-app_assoc.
Qed.

(** A list of palettes is accepted as a whole, or splits at the first
    palette that is rejected. *)
Lemma accepted_or_first_rejected (items : list (string * palette)) :
  Forall (λ nc, build_error nc.2 = None) items
  ∨ ∃ good name colors rest err,
      items = good ++ (name, colors) :: rest
      ∧ Forall (λ nc, build_error nc.2 = None) good
      ∧ build_error colors = Some err.
Proof.
  induction items as [|[name colors] items IH]; [by left|].
  destruct (build_error colors) as [err|] eqn:Herr.
  - right. exists [], name, colors, items, err. by split_and!.
  - destruct IH as [Hall|(good & name' & colors' & rest & err & -> & Hgood & Herr')].
    + left. by constructor.
    + right. exists ((name, colors) :: good), name', colors', rest, err.
      split_and!; [done | by constructor | done].
Qed.

Lemma load_loop_rejected items :
  Exists (λ nc, build_error nc.2 ≠ None) items →
  ∀ themes w, ∃ objs err,
    load_loop items themes w = (World (rcParams w) (heap w ++ objs), Raise err).
Proof.
  intros Hex themes w.
  destruct (accepted_or_first_rejected items)
    as [Hall|(good & name & colors & rest & err & -> & Hgood & Herr)].
  - exfalso. apply Exists_exists in Hex as (nc & Hin & Hnc).
    rewrite Forall_forall in Hall. by apply Hnc, Hall.
  - destruct (load_loop_first_rejected good name colors err Hgood Herr themes w)
      as (objs & _ & Hrun).
    exists objs, err. apply Hrun.
Qed.

(** The run of [load_themes], in both cases. *)
Lemma load_themes_cases configs w :
  (Forall (λ nc, build_error nc.2 = None) configs
   ∧ ∃ objs,
       length objs = length configs
       ∧ Forall2 (λ nc style, built_style nc.2 = Some style) configs objs
       ∧ load_themes configs w
         = (World (rcParams w) (heap w ++ objs),
            Ok (registry_of configs [] (length (heap w)))))
  ∨ (Exists (λ nc, build_error nc.2 ≠ None) configs
     ∧ ∃ objs err,
         load_themes configs w = (World (rcParams w) (heap w ++ objs), Raise err)).
Proof.
  destruct (accepted_or_first_rejected configs)
    as [Hall|(good & name & colors & rest & err & -> & Hgood & Herr)].
  - left. split; [done|]. apply (load_loop_accepted configs Hall [] w).
  - right.
    assert (Exists (λ nc, build_error nc.2 ≠ None) (good ++ (name, colors) :: rest)) as Hex.
    { apply Exists_app. right. apply Exists_cons_hd. simpl. congruence. }
    split; [done|]. apply (load_loop_rejected _ Hex [] w).
Qed.

Lemma load_themes_run configs w w' themes :
  load_themes configs w = (w', Ok themes) →
  ∃ objs,
    length objs = length configs
    ∧ Forall2 (λ nc style, built_style nc.2 = Some style) configs objs
    ∧ w' = World (rcParams w) (heap w ++ objs)
    ∧ themes = registry_of configs [] (length (heap w)).
Proof.
  intros Hload.
  destruct (load_themes_cases configs w)
    as [(_ & objs & Hlen & Hobjs & Heq)|(_ & objs & err & Heq)];
    rewrite Heq in Hload; simplify_eq. eauto.
Qed.

End loading.




Lemma registry_wf_Forall themes w :
  registry_wf themes w = true
  ↔ Forall (λ nt, Theme.name nt.2 = nt.1 ∧ Theme.rc nt.2 < length (heap w)) themes.
Proof.
  unfold registry_wf. rewrite forallb_forall, Forall_forall.
  split; intros H nt Hin.
  - apply list_elem_of_In, H, andb_true_iff in Hin as [?%bool_decide_eq_true ?%bool_decide_eq_true].
    done.
  - apply list_elem_of_In, H in Hin as [? ?]. apply andb_true_iff.
    by rewrite !bool_decide_eq_true.
Qed.

Lemma registry_wf_getitem themes w name theme :
  registry_wf themes w = true →
  PyDict.getitem themes name = Some theme →
  Theme.name theme = name ∧ Theme.rc theme < length (heap w).
Proof.
  rewrite registry_wf_Forall, Forall_forall.
  intros H Hget%PyDictFacts.getitem_Some_elem. apply (H _ Hget).
Qed.

Lemma registry_wf_mono themes w w' :
  (length (heap w) ≤ length (heap w'))%nat →
  registry_wf themes w = true → registry_wf themes w' = true.
Proof.
  rewrite !registry_wf_Forall. intros Hle H. eapply Forall_impl; [done|].
  intros nt [? ?]. split; [done | lia].
Qed.

Lemma setitem_Forall {V} (P : string * V → Prop) d k v :
  Forall P d → P (k, v) → Forall P (PyDict.setitem d k v).
Proof.
  intros Hd Hkv. induction Hd as [|[k' v'] d Hx Hd IH]; simpl.
  - by constructor.
  - case_decide; subst; constructor; auto.
Qed.

Lemma registry_of_Forall items : ∀ themes next,
  Forall (λ nt, Theme.name nt.2 = nt.1 ∧ Theme.rc nt.2 < next) themes →
  Forall (λ nt, Theme.name nt.2 = nt.1 ∧ Theme.rc nt.2 < next + length items)
         (registry_of items themes next).
Proof.
  induction items as [|[name colors] items IH]; intros themes next Hthemes; simpl.
  - eapply Forall_impl; [done|]. intros nt [? ?]. split; [done | lia].
  - replace (next + S (length items)) with (S next + length items) by lia.
    apply IH, setitem_Forall.
    + eapply Forall_impl; [done|]. intros nt [? ?]. split; [done | lia].
    + simpl. split; [done | lia].
Qed.

Lemma registry_of_keys items : ∀ themes next,
  PyDict.keys (registry_of items themes next) = foldl add_key (PyDict.keys themes) items.*1.
Proof.
  induction items as [|[name colors] items IH]; intros themes next; csimpl; [done|].
  by rewrite IH, keys_setitem.
Qed.

Lemma add_keys_NoDup_acc ks : ∀ acc, NoDup acc → NoDup (foldl add_key acc ks).
Proof.
  induction ks as [|k ks IH]; intros acc Hacc; simpl; [done|].
  apply IH. unfold add_key. case_decide; [done|].
  apply NoDup_app. split_and!; [done| |apply NoDup_singleton].
  intros x Hx ->%list_elem_of_singleton. done.
Qed.

Lemma add_keys_elem ks : ∀ acc k, k ∈ foldl add_key acc ks ↔ k ∈ acc ∨ k ∈ ks.
Proof.
  induction ks as [|k0 ks IH]; intros acc k; simpl.
  - rewrite elem_of_nil. naive_solver.
  - rewrite IH, elem_of_cons. unfold add_key. case_decide.
    + naive_solver.
    + rewrite elem_of_app, list_elem_of_singleton. naive_solver.
Qed.

(** What a successful [load_themes] leaves behind. *)
Lemma load_themes_Ok {mpl : Validators} configs w w' themes :
  load_themes configs w = (w', Ok themes) →
  registry_wf themes w' = true
  ∧ PyDict.keys themes = foldl add_key [] configs.*1
  ∧ rcParams w' = rcParams w.
Proof.
  intros (objs & Hlen & _ & -> & ->)%load_themes_run. split_and!.
  - apply registry_wf_Forall. cbn [heap]. rewrite length_app, Hlen.
    apply registry_of_Forall. constructor.
  - apply registry_of_keys.
  - done.
Qed.


(** ** Facts about Python strings *)

Lemma append_nil (s : string) : EmptyString +:+ s = s.
Proof. reflexivity. Qed.

Lemma append_cons (c : ascii) (s1 s2 : string) :
  String c s1 +:+ s2 = String c (s1 +:+ s2).
Proof. reflexivity. Qed.

Lemma append_assoc (s1 s2 s3 : string) : (s1 +:+ s2) +:+ s3 = s1 +:+ (s2 +:+ s3).
Proof.
  induction s1 as [|c s1 IH]; [done|]. by rewrite !append_cons, IH.
Qed.

Lemma prefixb_append (p s : string) : PyStr.prefixb p (p +:+ s) = true.
Proof.
  induction p as [|c p IH]; [done|].
  rewrite append_cons. simpl. by rewrite Ascii.eqb_refl, IH.
Qed.

Lemma prefixb_true (p s : string) : PyStr.prefixb p s = true → ∃ post, s = p +:+ post.
Proof.
  revert s. induction p as [|c p IH]; intros s; simpl.
  - by exists s.
  - destruct s as [|d s]; [done|].
    intros [->%Ascii.eqb_eq [post ->]%IH]%andb_true_iff. by exists post.
Qed.

Lemma containsb_true (needle hay : string) :
  PyStr.containsb needle hay = true ↔ PyStr.contains needle hay.
Proof.
  unfold PyStr.contains. split.
  - induction hay as [|c hay IH]; simpl.
    + rewrite orb_false_r. intros [post ->]%prefixb_true. by exists EmptyString, post.
    + intros [[post ->]%prefixb_true | (pre & post & ->)%IH]%orb_true_iff.
      * by exists EmptyString, post.
      * by exists (String c pre), post.
  - intros (pre & post & ->). induction pre as [|c pre IH].
    + rewrite append_nil.
      destruct (needle +:+ post) eqn:E; simpl; rewrite <-E, prefixb_append; done.
    + rewrite append_cons. simpl. by rewrite IH, orb_true_r.
Qed.

Lemma plain_char_repr (c : ascii) :
  PyStr.plain_char c = true → PyStr.repr_char PyStr.quote1 c = String c EmptyString.
Proof.
  destruct c as [[] [] [] [] [] [] [] []]; vm_compute; congruence.
Qed.

Lemma plain_has_no_quote (s : string) :
  PyStr.plain s = true → PyStr.has_char PyStr.quote1 s = false.
Proof.
  induction s as [|c s IH]; simpl; [done|].
  intros [Hc Hs]%andb_true_iff. rewrite (IH Hs).
  unfold PyStr.plain_char in Hc. apply andb_true_iff in Hc as [[_ Hq]%andb_true_iff _].
  by destruct (Ascii.eqb c PyStr.quote1).
Qed.

Lemma plain_repr_body (s : string) :
  PyStr.plain s = true → PyStr.repr_body PyStr.quote1 s = s.
Proof.
  induction s as [|c s IH]; simpl; [done|].
  intros [Hc Hs]%andb_true_iff. by rewrite (plain_char_repr c Hc), (IH Hs).
Qed.

(** A name of printable characters without quote and backslash is printed
    as it is, between single quotes. *)
Lemma plain_repr (s : string) :
  PyStr.plain s = true →
  PyStr.repr s = String PyStr.quote1 (s +:+ String PyStr.quote1 EmptyString).
Proof.
  intros Hs. unfold PyStr.repr, PyStr.repr_quote.
  rewrite (plain_has_no_quote s Hs). simpl. by rewrite (plain_repr_body s Hs).
Qed.

Lemma sorted_Sorted (l : list string) : Sorted String.le (PyStr.sorted l).
Proof. apply Sorted_merge_sort. apply _. Qed.

Lemma sorted_Permutation (l : list string) : PyStr.sorted l ≡ₚ l.
Proof. apply merge_sort_Permutation. Qed.

(** ** Lookup *)

(** C8. After a successful import, [available()] changes nothing and
    returns the names of the style file: each of them once, no other name,
    in the order of the file. *)
Theorem available_names {mpl : Validators}
    (style_json : list (string * palette)) w0 w1 themes w :
  load_themes (_read_default_style style_json) w0 = (w1, Ok themes) →
  ∃ names,
    available themes w = (w, Ok names)
    ∧ NoDup names
    ∧ (∀ name, name ∈ names ↔ name ∈ style_json.*1)
    ∧ names `sublist_of` style_json.*1
    ∧ (NoDup style_json.*1 → names = style_json.*1).
Proof.
  intros (_ & Hkeys & _)%load_themes_Ok.
  exists (PyDict.keys themes). split; [done|].
  assert (PyDict.keys (_read_default_style style_json) = foldl add_key [] style_json.*1)
    as Hfile.
  { unfold _read_default_style. rewrite keys_of_pairs. f_equal.
    rewrite <-list_fmap_compose. by apply list_fmap_ext; intros ? [? ?]. }
  unfold PyDict.keys in Hfile at 1. rewrite Hfile in Hkeys.
  assert (NoDup (foldl add_key [] style_json.*1)) as Hnd
    by (apply add_keys_NoDup_acc; constructor).
  rewrite (add_keys_NoDup _ [] Hnd) in Hkeys. simpl in Hkeys. rewrite Hkeys.
  split_and!.
  - done.
  - intros name. rewrite add_keys_elem, elem_of_nil. naive_solver.
  - destruct (add_keys_sublist style_json.*1 []) as (ks' & -> & ?). done.
  - intros Hnd'. by rewrite (add_keys_NoDup _ []).
Qed.

Lemma available_witness :
  ∃ names,
    available sample_themes sample_world1 = (sample_world1, Ok names)
    ∧ NoDup names
    ∧ (∀ name, name ∈ names ↔ name ∈ sample_style.*1)
    ∧ names `sublist_of` sample_style.*1
    ∧ (NoDup sample_style.*1 → names = sample_style.*1).
Proof.
  apply (available_names (mpl:=strict_validators)
           sample_style sample_world sample_world1 sample_themes).
  reflexivity.
Defined.

Lemma get_present themes name w :
  name ∈ PyDict.keys themes →
  ∃ theme, PyDict.getitem themes name = Some theme ∧ get themes name w = (w, Ok theme).
Proof.
  intros [theme Hget]%PyDictFacts.getitem_is_Some. exists theme. split; [done|].
  unfold get. by rewrite Hget.
Qed.

Lemma get_absent themes name w :
  name ∉ PyDict.keys themes →
  get themes name w = (w, Raise (KeyError (unknown_theme themes name))).
Proof. intros Hget%PyDictFacts.getitem_None. unfold get. by rewrite Hget. Qed.

(** C1, as the code has it. [get] changes nothing. For a name of the
    registry it returns the stored theme, whose [name] is the requested one.
    For any other name it raises a [KeyError] whose message is
    "Unknown theme: ", the [repr] of the name, ". Available: " and the
    printed list of the sorted registry names; the name itself occurs in the
    message when it has only printable characters other than the single
    quote and the backslash. *)
Theorem get_spec themes w name :
  registry_wf themes w = true →
  (name ∈ PyDict.keys themes →
   ∃ theme, get themes name w = (w, Ok theme)
            ∧ PyDict.getitem themes name = Some theme
            ∧ Theme.name theme = name)
  ∧ (name ∉ PyDict.keys themes →
     ∃ msg names,
       get themes name w = (w, Raise (KeyError msg))
       ∧ Sorted String.le names
       ∧ names ≡ₚ PyDict.keys themes
       ∧ msg = "Unknown theme: " +:+ PyStr.repr name +:+ ". Available: "
                 +:+ PyStr.repr_list names
       ∧ (PyStr.plain name = true → PyStr.contains name msg)).
Proof.
  intros Hwf. split.
  - intros (theme & Hget & Hrun)%(get_present themes name w).
    exists theme. split_and!; [done..|].
    by destruct (registry_wf_getitem themes w name theme Hwf Hget).
  - intros Habs.
    exists (unknown_theme themes name), (PyStr.sorted (PyDict.keys themes)).
    split_and!; [by apply get_absent | apply sorted_Sorted | apply sorted_Permutation
                | reflexivity |].
    intros Hplain. unfold unknown_theme. rewrite (plain_repr name Hplain).
    exists ("Unknown theme: " +:+ String PyStr.quote1 EmptyString),
           (String PyStr.quote1 EmptyString +:+ ". Available: "
              +:+ PyStr.repr_list (PyStr.sorted (PyDict.keys themes))).
    rewrite !append_assoc, !append_cons, !append_nil, ?append_assoc.
    by rewrite !append_cons, !append_nil.
Qed.

Lemma get_witness :
  (∃ theme, get sample_themes "dark" sample_world1 = (sample_world1, Ok theme)
            ∧ PyDict.getitem sample_themes "dark" = Some theme
            ∧ Theme.name theme = "dark")
  ∧ (∃ msg names,
       get sample_themes "unknown-theme" sample_world1
         = (sample_world1, Raise (KeyError msg))
       ∧ Sorted String.le names
       ∧ names ≡ₚ PyDict.keys sample_themes
       ∧ msg = "Unknown theme: " +:+ PyStr.repr "unknown-theme" +:+ ". Available: "
                 +:+ PyStr.repr_list names
       ∧ (PyStr.plain "unknown-theme" = true → PyStr.contains "unknown-theme" msg)).
Proof.
  split.
  - apply (get_spec sample_themes sample_world1 "dark"); [reflexivity|].
    vm_compute. apply list_elem_of_further, list_elem_of_here.
  - apply (get_spec sample_themes sample_world1 "unknown-theme"); [reflexivity|].
    apply PyDictFacts.getitem_None. reflexivity.
Defined.

(** The name made of [a], a backslash and [b] is not in the sample registry,
    and the message [get] raises for it does not contain it: [repr] doubles
    the backslash. *)
Lemma get_message_without_name :
  ("a\b" ∉ PyDict.keys sample_themes)
  ∧ ∃ msg, get sample_themes "a\b" sample_world1 = (sample_world1, Raise (KeyError msg))
           ∧ msg = "Unknown theme: 'a\\b'. Available: ['dark', 'light']"
           ∧ ¬ PyStr.contains "a\b" msg.
Proof.
  split; [by apply PyDictFacts.getitem_None|].
  eexists. split_and!; [reflexivity | reflexivity |].
  intros H%containsb_true. vm_compute in H. discriminate.
Qed.

(** ** Applying a theme *)

Lemma use_present themes name theme w :
  PyDict.getitem themes name = Some theme →
  use themes name w
  = (World (deref w (Theme.rc theme) ∪ rcParams w) (heap w), Ok theme).
Proof.
  intros Hget. unfold use.
  erewrite bind_Ok by (unfold get; rewrite Hget; reflexivity).
  reflexivity.
Qed.

Lemma use_absent themes name w :
  name ∉ PyDict.keys themes →
  use themes name w = (w, Raise (KeyError (unknown_theme themes name))).
Proof.
  intros Habs. unfold use. by erewrite bind_Raise by by apply get_absent.
Qed.

(** C2. For a name of the registry, [use] returns the theme [get] returns
    and merges the theme's configuration into the global one: afterwards
    every key of the theme's configuration has the theme's value and every
    other key is as before; no other object changes. For any other name
    [use] raises what [get] raises and changes nothing. *)
Theorem use_spec themes w name :
  (name ∈ PyDict.keys themes →
   ∃ theme w',
     get themes name w = (w, Ok theme)
     ∧ use themes name w = (w', Ok theme)
     ∧ PyDict.getitem themes name = Some theme
     ∧ heap w' = heap w
     ∧ (∀ key val, deref w (Theme.rc theme) !! key = Some val →
                   rcParams w' !! key = Some val)
     ∧ (∀ key, deref w (Theme.rc theme) !! key = None →
               rcParams w' !! key = rcParams w !! key))
  ∧ (name ∉ PyDict.keys themes →
     ∃ e, get themes name w = (w, Raise e) ∧ use themes name w = (w, Raise e)).
Proof.
  split.
  - intros (theme & Hget & Hrun)%(get_present themes name w).
    eexists theme, _. split_and!; [done | by apply use_present | done | done | |].
    + intros key val Hkey. cbn [rcParams]. by apply lookup_union_Some_l.
    + intros key Hkey. cbn [rcParams]. by apply lookup_union_r.
  - intros Habs. eexists. split; [by apply get_absent | by apply use_absent].
Qed.

Lemma use_witness :
  (∃ theme w',
     get sample_themes "dark" sample_world1 = (sample_world1, Ok theme)
     ∧ use sample_themes "dark" sample_world1 = (w', Ok theme)
     ∧ PyDict.getitem sample_themes "dark" = Some theme
     ∧ heap w' = heap sample_world1
     ∧ (∀ key val, deref sample_world1 (Theme.rc theme) !! key = Some val →
                   rcParams w' !! key = Some val)
     ∧ (∀ key, deref sample_world1 (Theme.rc theme) !! key = None →
               rcParams w' !! key = rcParams sample_world1 !! key))
  ∧ (∃ e, get sample_themes "unknown-theme" sample_world1 = (sample_world1, Raise e)
          ∧ use sample_themes "unknown-theme" sample_world1 = (sample_world1, Raise e)).
Proof.
  split.
  - apply (use_spec sample_themes sample_world1 "dark").
    vm_compute. apply list_elem_of_further, list_elem_of_here.
  - apply (use_spec sample_themes sample_world1 "unknown-theme").
    apply PyDictFacts.getitem_None. reflexivity.
Defined.

(** What the test of [use] observes on the sample file. *)
Example use_dark :
  let w' := (use sample_themes "dark" sample_world1).1 in
  rcParams w' !! "figure.facecolor" = Some (VStr "#111111")
  ∧ rcParams w' !! "text.color" = Some (VStr "#eeeeee")
  ∧ rcParams w' !! "figure.dpi" = Some (VFloat 100.0)
  ∧ ∃ rest, rcParams w' !! "axes.prop_cycle" = Some (VCycler "color" ("#8dd3c7" :: rest)).
Proof. split_and!; [reflexivity..|]. eexists. reflexivity. Qed.

(** ** Scoped application *)

(** C3. For a name of the registry and any body, [context] runs the body
    in a world where the global configuration has the theme's value under
    every key the theme configures, and leaves with the global configuration
    it found, whether the body returns or raises; the outcome is the body's. *)
Theorem context_spec {A} themes w name (body : M A) :
  name ∈ PyDict.keys themes →
  ∃ theme w_in,
    PyDict.getitem themes name = Some theme
    ∧ heap w_in = heap w
    ∧ (∀ key val, deref w (Theme.rc theme) !! key = Some val →
                  rcParams w_in !! key = Some val)
    ∧ context themes name body w = (World (rcParams w) (heap (body w_in).1), (body w_in).2)
    ∧ (∀ w_out a, body w_in = (w_out, Ok a) →
                  context themes name body w = (World (rcParams w) (heap w_out), Ok a))
    ∧ (∀ w_out e, body w_in = (w_out, Raise e) →
                  context themes name body w = (World (rcParams w) (heap w_out), Raise e)).
Proof.
  intros (theme & Hget & Hrun)%(get_present themes name w).
  exists theme, (World (deref w (Theme.rc theme) ∪ rcParams w) (heap w)).
  assert (context themes name body w
          = (World (rcParams w)
               (heap (body (World (deref w (Theme.rc theme) ∪ rcParams w) (heap w))).1),
             (body (World (deref w (Theme.rc theme) ∪ rcParams w) (heap w))).2)) as Hctx.
  { unfold context. erewrite bind_Ok by exact Hrun.
    unfold rc_context, rcParams_update.
    by destruct (body (World (deref w (Theme.rc theme) ∪ rcParams w) (heap w))). }
  split_and!; [done | done | | done | |].
  - intros key val Hkey. cbn [rcParams]. by apply lookup_union_Some_l.
  - intros w_out a Hbody. by rewrite Hctx, Hbody.
  - intros w_out e Hbody. by rewrite Hctx, Hbody.
Qed.

Lemma context_witness :
  ∃ theme w_in,
    PyDict.getitem sample_themes "light" = Some theme
    ∧ heap w_in = heap sample_world1
    ∧ (∀ key val, deref sample_world1 (Theme.rc theme) !! key = Some val →
                  rcParams w_in !! key = Some val)
    ∧ context sample_themes "light" sample_body sample_world1
      = (World (rcParams sample_world1) (heap (sample_body w_in).1), (sample_body w_in).2)
    ∧ (∀ w_out a, sample_body w_in = (w_out, Ok a) →
                  context sample_themes "light" sample_body sample_world1
                  = (World (rcParams sample_world1) (heap w_out), Ok a))
    ∧ (∀ w_out e, sample_body w_in = (w_out, Raise e) →
                  context sample_themes "light" sample_body sample_world1
                  = (World (rcParams sample_world1) (heap w_out), Raise e)).
Proof.
  apply (context_spec sample_themes sample_world1 "light" sample_body).
  vm_compute. apply list_elem_of_here.
Defined.

Example context_light_fails :
  context sample_themes "light" sample_body sample_world1
  = (sample_world1, Raise (OtherError "RuntimeError" "boom")).
Proof. reflexivity. Qed.

(** ** Copies *)

Lemma deref_new w l :
  deref (World (rcParams w) (heap w ++ [∅])) l = deref w l.
Proof.
  unfold deref. cbn [heap].
  destruct (decide (l < length (heap w))) as [Hlt|Hge].
  - by rewrite lookup_app_l.
  - destruct (decide (l = length (heap w))) as [->|].
    + rewrite lookup_app_r by lia.
      replace (length (heap w) - length (heap w)) with 0 by lia.
      by rewrite (lookup_ge_None_2 (heap w)) by lia.
    + rewrite (lookup_ge_None_2 (heap w ++ [∅])) by (rewrite length_app; simpl; lia).
      by rewrite lookup_ge_None_2 by lia.
Qed.

Lemma to_rcparams_present themes name theme w :
  PyDict.getitem themes name = Some theme →
  to_rcparams themes name w
  = (World (rcParams w) (heap w ++ [deref w (Theme.rc theme)]), Ok (length (heap w))).
Proof.
  intros Hget. unfold to_rcparams.
  erewrite bind_Ok by (unfold get; rewrite Hget; reflexivity).
  rewrite new_then.
  erewrite bind_Ok by (unfold rc_update; cbn [heap rcParams]; rewrite alter_last; reflexivity).
  by rewrite deref_new, (right_id_L ∅ (∪)).
Qed.

Lemma deref_extend w objs l g :
  l < length (heap w) → deref (World g (heap w ++ objs)) l = deref w l.
Proof. intros Hl. unfold deref. cbn [heap]. by rewrite lookup_app_l. Qed.

Lemma deref_setitem_eq w l key val :
  l < length (heap w) →
  deref (rc_setitem l key val w).1 l = <[key:=val]> (deref w l).
Proof.
  intros Hl. unfold deref, rc_setitem. cbn [heap fst].
  rewrite list_lookup_alter_eq.
  destruct (lookup_lt_is_Some_2 (heap w) l Hl) as [m ->]. done.
Qed.

Lemma deref_setitem_ne w l l' key val :
  l ≠ l' → deref (rc_setitem l key val w).1 l' = deref w l'.
Proof.
  intros Hl. unfold deref, rc_setitem. cbn [heap fst].
  by rewrite list_lookup_alter_ne.
Qed.

(** An assignment [rc[key] = val] either raises and leaves every object as
    it was, or stores the validated value: what is stated of [rc_setitem]
    for every value holds of every assignment that is carried out. *)
Lemma RcParams_setitem_store {mpl : Validators} rc key val w :
  match validate key val with
  | Ok cval => RcParams_setitem rc key val w = rc_setitem rc key cval w
  | Raise err => RcParams_setitem rc key val w = (w, Raise err)
  end.
Proof. unfold RcParams_setitem. by destruct (validate key val). Qed.

(** C7. For a name of a loaded registry, [to_rcparams] returns a new
    object, different from the configuration of every stored theme, with the
    values of the stored configuration under every key; it changes neither
    the stored configuration nor the global one. An assignment to an entry of
    the returned object changes that object only: the stored configuration
    and every other object, such as the copy a second call returns, keep
    their values. *)
Theorem to_rcparams_spec themes w name :
  registry_wf themes w = true →
  name ∈ PyDict.keys themes →
  ∃ theme copy w',
    PyDict.getitem themes name = Some theme
    ∧ to_rcparams themes name w = (w', Ok copy)
    ∧ (∀ name' theme', PyDict.getitem themes name' = Some theme' →
                        copy ≠ Theme.rc theme')
    ∧ deref w' copy = deref w (Theme.rc theme)
    ∧ deref w' (Theme.rc theme) = deref w (Theme.rc theme)
    ∧ rcParams w' = rcParams w
    ∧ (∃ copy2 w2, to_rcparams themes name w' = (w2, Ok copy2) ∧ copy2 ≠ copy
                   ∧ deref w2 copy = deref w' copy)
    ∧ (∀ key val,
         let w'' := (rc_setitem copy key val w').1 in
         deref w'' copy = <[key:=val]> (deref w' copy)
         ∧ deref w'' (Theme.rc theme) = deref w (Theme.rc theme)
         ∧ rcParams w'' = rcParams w
         ∧ ∀ l, l ≠ copy → deref w'' l = deref w' l).
Proof.
  intros Hwf (theme & Hget & _)%(get_present themes name w).
  destruct (registry_wf_getitem themes w name theme Hwf Hget) as [_ Hrc].
  exists theme, (length (heap w)), (World (rcParams w) (heap w ++ [deref w (Theme.rc theme)])).
  split_and!.
  - done.
  - by apply to_rcparams_present.
  - intros name' theme' Hget'.
    destruct (registry_wf_getitem themes w name' theme' Hwf Hget') as [_ Hrc']. lia.
  - apply deref_last.
  - by apply deref_extend.
  - done.
  - eexists _, _. split_and!.
    + by apply to_rcparams_present.
    + cbn [heap]. rewrite length_app. simpl. lia.
    + apply deref_extend. cbn [heap]. rewrite length_app. simpl. lia.
  - intros key val. cbv zeta. split_and!.
    + apply deref_setitem_eq. cbn [heap]. rewrite length_app. simpl. lia.
    + rewrite deref_setitem_ne by lia. by apply deref_extend.
    + done.
    + intros l Hl. by apply deref_setitem_ne.
Qed.

Lemma to_rcparams_witness :
  ∃ theme copy w',
    PyDict.getitem sample_themes "dark" = Some theme
    ∧ to_rcparams sample_themes "dark" sample_world1 = (w', Ok copy)
    ∧ (∀ name' theme', PyDict.getitem sample_themes name' = Some theme' →
                        copy ≠ Theme.rc theme')
    ∧ deref w' copy = deref sample_world1 (Theme.rc theme)
    ∧ deref w' (Theme.rc theme) = deref sample_world1 (Theme.rc theme)
    ∧ rcParams w' = rcParams sample_world1
    ∧ (∃ copy2 w2, to_rcparams sample_themes "dark" w' = (w2, Ok copy2) ∧ copy2 ≠ copy
                   ∧ deref w2 copy = deref w' copy)
    ∧ (∀ key val,
         let w'' := (rc_setitem copy key val w').1 in
         deref w'' copy = <[key:=val]> (deref w' copy)
         ∧ deref w'' (Theme.rc theme) = deref sample_world1 (Theme.rc theme)
         ∧ rcParams w'' = rcParams sample_world1
         ∧ ∀ l, l ≠ copy → deref w'' l = deref w' l).
Proof.
  apply (to_rcparams_spec sample_themes sample_world1 "dark"); [reflexivity|].
  vm_compute. apply list_elem_of_further, list_elem_of_here.
Defined.

(** The test of [to_rcparams] on the sample file. *)
Example to_rcparams_dark_isolated :
  let '(w', r) := to_rcparams sample_themes "dark" sample_world1 in
  let w'' := (RcParams_setitem (mpl:=strict_validators) 2 "figure.facecolor"
                (VStr "#123456") w').1 in
  r = Ok 2
  ∧ deref w'' 2 !! "figure.facecolor" = Some (VStr "#123456")
  ∧ deref w'' 1 !! "figure.facecolor" = Some (VStr "#111111").
Proof. vm_compute. done. Qed.

(** ** Iterating over themes *)

Lemma style_of_Some themes h name theme :
  PyDict.getitem themes name = Some theme →
  style_of themes h name = default ∅ (h !! Theme.rc theme).
Proof. intros Hget. unfold style_of. by rewrite Hget. Qed.

Lemma applied_cons themes h g name names :
  applied themes h g (name :: names)
  = applied themes h (style_of themes h name ∪ g) names.
Proof. reflexivity. Qed.

Lemma drive_created themes k names w :
  drive themes (S k) (GenCreated (Some names)) w
  = drive themes (S k) (GenSuspended names) w.
Proof. reflexivity. Qed.

Lemma drive_prefix themes pre :
  Forall (λ name, name ∈ PyDict.keys themes) pre →
  ∀ k rest g h,
    drive themes (length pre + k) (GenSuspended (pre ++ rest)) (World g h)
    = let '(w', seen, o) :=
        drive themes k (GenSuspended rest) (World (applied themes h g pre) h) in
      (w', seen_of themes h g pre ++ seen, o).
Proof.
  induction 1 as [|name pre Hname _ IH]; intros k rest g h.
  - simpl. by destruct (drive themes k (GenSuspended rest) (World g h)) as [[? ?] ?].
  - apply PyDictFacts.getitem_is_Some in Hname as [theme Hget].
    cbn [length Nat.add app drive next iter_use_resume].
    rewrite (use_present themes name theme _ Hget). cbn [rcParams heap].
    rewrite IH, applied_cons. cbn [seen_of]. rewrite Hget.
    rewrite (style_of_Some themes h name theme Hget). unfold deref. cbn [heap].
    by destruct (drive themes k (GenSuspended rest) _) as [[? ?] ?].
Qed.

Lemma drive_stop themes names k w :
  Forall (λ name, name ∈ PyDict.keys themes) (take k names) →
  (k ≤ length names)%nat →
  ∃ g', drive themes k (GenCreated (Some names)) w
        = (World (applied themes (heap w) (rcParams w) (take k names)) (heap w),
           seen_of themes (heap w) (rcParams w) (take k names), Stopped g').
Proof.
  intros Hpre Hk. destruct k as [|k].
  - eexists. simpl. by destruct w.
  - rewrite drive_created. exists (GenSuspended (drop (S k) names)).
    rewrite <-(take_drop (S k) names) at 1.
    pose proof (drive_prefix themes _ Hpre 0 (drop (S k) names) (rcParams w) (heap w))
      as Hrun.
    rewrite length_take_le, Nat.add_0_r in Hrun by done.
    destruct w as [g h]. cbn [rcParams heap] in *. rewrite Hrun. simpl.
    by rewrite app_nil_r.
Qed.

Lemma drive_exhaust themes names k w :
  Forall (λ name, name ∈ PyDict.keys themes) names →
  drive themes (length names + S k) (GenCreated (Some names)) w
  = (World (applied themes (heap w) (rcParams w) names) (heap w),
     seen_of themes (heap w) (rcParams w) names, Exhausted).
Proof.
  intros Hnames. rewrite Nat.add_succ_r, drive_created, <-Nat.add_succ_r.
  pose proof (drive_prefix themes _ Hnames (S k) [] (rcParams w) (heap w)) as Hrun.
  rewrite app_nil_r in Hrun. destruct w as [g h]. cbn [rcParams heap] in *.
  rewrite Hrun. simpl. by rewrite app_nil_r.
Qed.

Lemma drive_fail themes pre bad post k w :
  Forall (λ name, name ∈ PyDict.keys themes) pre →
  bad ∉ PyDict.keys themes →
  drive themes (length pre + S k) (GenCreated (Some (pre ++ bad :: post))) w
  = (World (applied themes (heap w) (rcParams w) pre) (heap w),
     seen_of themes (heap w) (rcParams w) pre,
     Failed (KeyError (unknown_theme themes bad))).
Proof.
  intros Hpre Hbad. rewrite Nat.add_succ_r, drive_created, <-Nat.add_succ_r.
  pose proof (drive_prefix themes _ Hpre (S k) (bad :: post) (rcParams w) (heap w))
    as Hrun.
  destruct w as [g h]. cbn [rcParams heap] in *. rewrite Hrun.
  cbn [drive next iter_use_resume]. rewrite (use_absent themes bad _ Hbad).
  by rewrite app_nil_r.
Qed.

Lemma seen_of_names themes h names : ∀ g,
  Forall (λ name, name ∈ PyDict.keys themes) names →
  (seen_of themes h g names).*1.*1 = names.
Proof.
  induction names as [|name names IH]; intros g Hnames; [done|].
  apply Forall_cons in Hnames as [[theme Hget]%PyDictFacts.getitem_is_Some Hnames].
  cbn [seen_of]. rewrite Hget. csimpl. by rewrite IH.
Qed.

Lemma seen_of_lookup themes h names : ∀ g i name theme g',
  seen_of themes h g names !! i = Some (name, theme, g') →
  names !! i = Some name
  ∧ PyDict.getitem themes name = Some theme
  ∧ g' = applied themes h g (take (S i) names).
Proof.
  induction names as [|name0 names IH]; intros g i name theme g' Hi; [done|].
  cbn [seen_of] in Hi. destruct (PyDict.getitem themes name0) as [theme0|] eqn:Hget; [|done].
  destruct i as [|i].
  - simpl in Hi. simplify_eq. split_and!; reflexivity || done.
  - simpl in Hi. apply IH in Hi as (? & ? & ->). split_and!; reflexivity || done.
Qed.

Lemma applied_last themes h g pre last theme key val :
  PyDict.getitem themes last = Some theme →
  default ∅ (h !! Theme.rc theme) !! key = Some val →
  applied themes h g (pre ++ [last]) !! key = Some val.
Proof.
  intros Hget Hkey. unfold applied. rewrite foldl_app. simpl.
  apply lookup_union_Some_l. by rewrite (style_of_Some themes h last theme Hget).
Qed.

(** C6. For names of the registry, calling [iter_use] changes nothing; a
    consumer that takes the first [k] items receives the first [k] names in
    the given order, each with its theme and with the global configuration
    in which exactly the themes up to this name have been merged, and leaves
    the global configuration as the last of these themes set it; taking one
    item more than there are names ends the iteration with all themes
    merged, so that every key of the last theme has the last theme's value.
    Without names the generator goes through [available()]. *)
Theorem iter_use_in_order themes w names :
  Forall (λ name, name ∈ PyDict.keys themes) names →
  let h := heap w in
  let g := rcParams w in
  iter_use (Some names) w = (w, Ok (GenCreated (Some names)))
  ∧ (∀ k, (k ≤ length names)%nat →
          ∃ g', drive themes k (GenCreated (Some names)) w
                = (World (applied themes h g (take k names)) h,
                   seen_of themes h g (take k names), Stopped g')
                ∧ (seen_of themes h g (take k names)).*1.*1 = take k names)
  ∧ drive themes (S (length names)) (GenCreated (Some names)) w
    = (World (applied themes h g names) h, seen_of themes h g names, Exhausted)
  ∧ (seen_of themes h g names).*1.*1 = names
  ∧ (∀ i name theme g',
       seen_of themes h g names !! i = Some (name, theme, g') →
       names !! i = Some name
       ∧ PyDict.getitem themes name = Some theme
       ∧ g' = applied themes h g (take (S i) names))
  ∧ (∀ pre last theme key val,
       names = pre ++ [last] →
       PyDict.getitem themes last = Some theme →
       deref w (Theme.rc theme) !! key = Some val →
       applied themes h g names !! key = Some val)
  ∧ (∀ k, drive themes (S k) (GenCreated None) w
          = drive themes (S k) (GenCreated (Some (PyDict.keys themes))) w).
Proof.
  intros Hnames h g. split_and!.
  - done.
  - intros k Hk.
    destruct (drive_stop themes names k w (Forall_take _ _ _ Hnames) Hk) as [g' Hrun].
    exists g'. split; [done|]. apply seen_of_names. by apply Forall_take.
  - replace (S (length names)) with (length names + 1) by lia.
    by apply drive_exhaust.
  - by apply seen_of_names.
  - apply seen_of_lookup.
  - intros pre last theme key val -> Hget Hkey. by eapply applied_last.
  - done.
Qed.

Lemma iter_use_order_witness :
  let names := ["light"; "dark"] in
  let h := heap sample_world1 in
  let g := rcParams sample_world1 in
  iter_use (Some names) sample_world1
  = (sample_world1, Ok (GenCreated (Some names)))
  ∧ (∀ k, (k ≤ length names)%nat →
          ∃ g', drive sample_themes k (GenCreated (Some names)) sample_world1
                = (World (applied sample_themes h g (take k names)) h,
                   seen_of sample_themes h g (take k names), Stopped g')
                ∧ (seen_of sample_themes h g (take k names)).*1.*1 = take k names)
  ∧ drive sample_themes (S (length names)) (GenCreated (Some names)) sample_world1
    = (World (applied sample_themes h g names) h, seen_of sample_themes h g names,
       Exhausted)
  ∧ (seen_of sample_themes h g names).*1.*1 = names
  ∧ (∀ i name theme g',
       seen_of sample_themes h g names !! i = Some (name, theme, g') →
       names !! i = Some name
       ∧ PyDict.getitem sample_themes name = Some theme
       ∧ g' = applied sample_themes h g (take (S i) names))
  ∧ (∀ pre last theme key val,
       names = pre ++ [last] →
       PyDict.getitem sample_themes last = Some theme →
       deref sample_world1 (Theme.rc theme) !! key = Some val →
       applied sample_themes h g names !! key = Some val)
  ∧ (∀ k, drive sample_themes (S k) (GenCreated None) sample_world1
          = drive sample_themes (S k) (GenCreated (Some (PyDict.keys sample_themes)))
              sample_world1).
Proof.
  apply (iter_use_in_order sample_themes sample_world1 ["light"; "dark"]).
  vm_compute. repeat constructor.
Defined.

(** The test of [iter_use] on the sample file: the facecolor seen at each
    item and after the loop. *)
Example iter_use_light_dark :
  let '(w', seen, o) :=
    drive sample_themes 3 (GenCreated (Some ["light"; "dark"])) sample_world1 in
  o = Exhausted
  ∧ (λ item, (item.1.1, item.2 !! "figure.facecolor")) <$> seen
    = [("light", Some (VStr "#ffffff")); ("dark", Some (VStr "#111111"))]
  ∧ rcParams w' !! "figure.facecolor" = Some (VStr "#111111").
Proof. vm_compute. done. Qed.

(** C10. Calling [iter_use] changes nothing, whatever the names are. When
    the names are registry names [pre] followed by a name [bad] that is not
    in the registry, a consumer that asks for more than [length pre] items
    receives the items of [pre], each after its theme has been merged into
    the global configuration, and then the [KeyError] of [get bad]; the
    global configuration is then the one the last item of [pre] left, the
    same as for a consumer that stops after [length pre] items. *)
Theorem iter_use_lazy_not_atomic themes w pre bad post k :
  Forall (λ name, name ∈ PyDict.keys themes) pre →
  bad ∉ PyDict.keys themes →
  let names := pre ++ bad :: post in
  let h := heap w in
  let g := rcParams w in
  (∀ names', iter_use names' w = (w, Ok (GenCreated names')))
  ∧ drive themes (length pre + S k) (GenCreated (Some names)) w
    = (World (applied themes h g pre) h, seen_of themes h g pre,
       Failed (KeyError (unknown_theme themes bad)))
  ∧ get themes bad w = (w, Raise (KeyError (unknown_theme themes bad)))
  ∧ (seen_of themes h g pre).*1.*1 = pre
  ∧ (∀ i name theme g',
       seen_of themes h g pre !! i = Some (name, theme, g') →
       pre !! i = Some name
       ∧ PyDict.getitem themes name = Some theme
       ∧ g' = applied themes h g (take (S i) pre))
  ∧ ∃ g', drive themes (length pre) (GenCreated (Some names)) w
          = (World (applied themes h g pre) h, seen_of themes h g pre, Stopped g').
Proof.
  intros Hpre Hbad names h g. split_and!.
  - done.
  - by apply drive_fail.
  - by apply get_absent.
  - by apply seen_of_names.
  - apply seen_of_lookup.
  - destruct (drive_stop themes names (length pre) w) as [g' Hrun].
    + subst names. by rewrite take_app_length.
    + subst names. rewrite length_app. lia.
    + exists g'. subst names. by rewrite take_app_length in Hrun.
Qed.

Lemma iter_use_failure_witness :
  let pre := ["light"] in
  let bad := "unknown-theme" in
  let names := pre ++ bad :: ["dark"] in
  let h := heap sample_world1 in
  let g := rcParams sample_world1 in
  (∀ names', iter_use names' sample_world1
             = (sample_world1, Ok (GenCreated names')))
  ∧ drive sample_themes (length pre + 2) (GenCreated (Some names)) sample_world1
    = (World (applied sample_themes h g pre) h, seen_of sample_themes h g pre,
       Failed (KeyError (unknown_theme sample_themes bad)))
  ∧ get sample_themes bad sample_world1
    = (sample_world1, Raise (KeyError (unknown_theme sample_themes bad)))
  ∧ (seen_of sample_themes h g pre).*1.*1 = pre
  ∧ (∀ i name theme g',
       seen_of sample_themes h g pre !! i = Some (name, theme, g') →
       pre !! i = Some name
       ∧ PyDict.getitem sample_themes name = Some theme
       ∧ g' = applied sample_themes h g (take (S i) pre))
  ∧ ∃ g', drive sample_themes (length pre) (GenCreated (Some names)) sample_world1
          = (World (applied sample_themes h g pre) h, seen_of sample_themes h g pre,
             Stopped g').
Proof.
  apply (iter_use_lazy_not_atomic sample_themes sample_world1 ["light"]
           "unknown-theme" ["dark"] 1).
  - vm_compute. repeat constructor.
  - apply PyDictFacts.getitem_None. reflexivity.
Defined.

Example iter_use_light_unknown :
  let '(w', seen, o) :=
    drive sample_themes 3 (GenCreated (Some ["light"; "unknown-theme"; "dark"]))
      sample_world1 in
  o = Failed (KeyError "Unknown theme: 'unknown-theme'. Available: ['dark', 'light']")
  ∧ seen.*1.*1 = ["light"]
  ∧ rcParams w' !! "figure.facecolor" = Some (VStr "#ffffff").
Proof. vm_compute. done. Qed.

(** ** The stored themes across calls of the interface *)

Lemma run_op_context themes name body :
  run_op themes (OpContext name body) = context themes name (run_body themes body).
Proof. reflexivity. Qed.

Lemma bind_heap {A B} (c : M A) (k : A → M B) w :
  heap w `prefix_of` heap (c w).1 →
  (∀ a w', heap w' `prefix_of` heap (k a w').1) →
  heap w `prefix_of` heap ((c ≫= k) w).1.
Proof.
  intros Hc Hk. unfold mbind, M_bind. destruct (c w) as [w' [a|e]]; simpl in *; [|done].
  by etrans.
Qed.

Lemma get_world themes name w : (get themes name w).1 = w.
Proof. unfold get. by destruct (PyDict.getitem themes name). Qed.

Lemma use_heap themes name w : heap (use themes name w).1 = heap w.
Proof.
  unfold use, get, mbind, M_bind. by destruct (PyDict.getitem themes name).
Qed.

Lemma next_heap themes g w : heap (next themes g w).1.1 = heap w.
Proof.
  assert (∀ rest w, heap (iter_use_resume themes rest w).1.1 = heap w) as Hresume.
  { intros [|name rest] w0; [done|]. unfold iter_use_resume.
    pose proof (use_heap themes name w0) as Huse.
    by destruct (use themes name w0) as [w1 [theme|e]]. }
  destruct g as [[names|]|rest|]; simpl; auto.
Qed.

Lemma drive_heap themes items : ∀ g w, heap (drive themes items g w).1.1 = heap w.
Proof.
  induction items as [|items IH]; intros g w; [done|].
  cbn [drive]. pose proof (next_heap themes g w) as Hnext.
  destruct (next themes g w) as [[w1 g1] [[[name theme]|]|e]]; simpl in *; [|done..].
  pose proof (IH g1 w1) as Hrest.
  destruct (drive themes items g1 w1) as [[w2 seen] o]. simpl in *. congruence.
Qed.

Lemma to_rcparams_heap themes name w :
  heap w `prefix_of` heap (to_rcparams themes name w).1.
Proof.
  destruct (PyDict.getitem themes name) as [theme|] eqn:Hget.
  - rewrite (to_rcparams_present themes name theme w Hget). by eexists.
  - unfold to_rcparams, get, mbind, M_bind. by rewrite Hget.
Qed.

Lemma run_body_heap themes body :
  Forall (λ o, ∀ w, heap w `prefix_of` heap (run_op themes o w).1) body →
  ∀ w, heap w `prefix_of` heap (run_body themes body w).1.
Proof.
  induction 1 as [|o body Ho _ IH]; intros w; [done|].
  cbn [run_body]. apply bind_heap; [apply Ho | intros _ w'; apply IH].
Qed.

(** An operation only adds objects to the heap. *)
Lemma run_op_heap themes o : ∀ w, heap w `prefix_of` heap (run_op themes o w).1.
Proof.
  induction o as [|name|name|names items|name body IH|name] using op_induction; intros w.
  - done.
  - cbn [run_op]. apply bind_heap; [by rewrite get_world | done].
  - cbn [run_op]. apply bind_heap; [by rewrite use_heap | done].
  - cbn [run_op]. unfold iter_use_take, iter_use, consume, mbind, M_bind, mret, M_ret.
    pose proof (drive_heap themes items (GenCreated names) w) as Hdrive.
    destruct (drive themes items (GenCreated names) w) as [[w' seen] [|g|e]];
      simpl in *; by rewrite Hdrive.
  - rewrite run_op_context. unfold context. apply bind_heap; [by rewrite get_world|].
    intros theme w0. unfold rc_context, rcParams_update.
    pose proof (run_body_heap themes body IH
                  (World (deref w0 (Theme.rc theme) ∪ rcParams w0) (heap w0))) as Hbody.
    by destruct (run_body themes body _) as [w2 r].
  - cbn [run_op]. apply bind_heap; [apply to_rcparams_heap | done].
Qed.

Lemma run_ops_heap themes ops : ∀ w, heap w `prefix_of` heap (run_ops themes ops w).
Proof.
  induction ops as [|o ops IH]; intros w; [done|].
  cbn [run_ops foldl]. etrans; [apply (run_op_heap themes o w)|]. apply IH.
Qed.

Lemma deref_prefix w w' l :
  heap w `prefix_of` heap w' → l < length (heap w) → deref w' l = deref w l.
Proof.
  intros [objs Hobjs] Hl. unfold deref. by rewrite Hobjs, lookup_app_l.
Qed.

(** C9, as the code has it. Across every sequence of calls of
    [available], [get], [use], [iter_use], [context] and [to_rcparams],
    whether they fail or not, every theme of a loaded registry stays stored
    under its name with the same name, palette and configuration object, and
    this object keeps its values. *)
Theorem public_operations_keep_themes themes w ops name theme :
  registry_wf themes w = true →
  PyDict.getitem themes name = Some theme →
  let w' := run_ops themes ops w in
  get themes name w = (w, Ok theme)
  ∧ get themes name w' = (w', Ok theme)
  ∧ Theme.name theme = name
  ∧ deref w' (Theme.rc theme) = deref w (Theme.rc theme)
  ∧ registry_wf themes w' = true.
Proof.
  intros Hwf Hget w'.
  destruct (registry_wf_getitem themes w name theme Hwf Hget) as [Hname Hrc].
  pose proof (run_ops_heap themes ops w) as Hpre.
  split_and!.
  - unfold get. by rewrite Hget.
  - unfold get. by rewrite Hget.
  - done.
  - by apply deref_prefix.
  - eapply registry_wf_mono; [|done]. by apply prefix_length.
Qed.

Lemma public_operations_witness :
  let theme := Theme.mk "dark" (default [] (PyDict.getitem sample_style "dark")) 1 in
  let w' := run_ops sample_themes sample_ops sample_world1 in
  get sample_themes "dark" sample_world1 = (sample_world1, Ok theme)
  ∧ get sample_themes "dark" w' = (w', Ok theme)
  ∧ Theme.name theme = "dark"
  ∧ deref w' (Theme.rc theme) = deref sample_world1 (Theme.rc theme)
  ∧ registry_wf sample_themes w' = true.
Proof.
  apply (public_operations_keep_themes sample_themes sample_world1 sample_ops "dark");
    reflexivity.
Defined.

(** The configuration object of a stored theme can be assigned to: after
    [get("dark").rc["figure.facecolor"] = "#123456"] the stored theme has
    another facecolor, and [use] applies it. The colour is one the
    validation stores as it is. *)
Lemma stored_style_assignable :
  ∃ theme,
    get sample_themes "dark" sample_world1 = (sample_world1, Ok theme)
    ∧ let w' := (rc_setitem (Theme.rc theme) "figure.facecolor" (VStr "#123456")
                   sample_world1).1 in
      get sample_themes "dark" w' = (w', Ok theme)
      ∧ deref sample_world1 (Theme.rc theme) !! "figure.facecolor" = Some (VStr "#111111")
      ∧ deref w' (Theme.rc theme) !! "figure.facecolor" = Some (VStr "#123456")
      ∧ deref w' (Theme.rc theme) ≠ deref sample_world1 (Theme.rc theme)
      ∧ rcParams (use sample_themes "dark" w').1 !! "figure.facecolor"
        = Some (VStr "#123456")
      ∧ ∀ mpl : Validators,
          RcParams_setitem (Theme.rc theme) "figure.facecolor" (VStr "#123456")
            sample_world1
          = rc_setitem (Theme.rc theme) "figure.facecolor" (VStr "#123456")
              sample_world1.
Proof.
  eexists. split; [reflexivity|]. cbv zeta.
  split_and!; [reflexivity..| |reflexivity|intros mpl; reflexivity].
  intros Heq.
  assert (deref (rc_setitem 1 "figure.facecolor" (VStr "#123456") sample_world1).1 1
            !! "figure.facecolor" = Some (VStr "#111111")) as Hkey
    by (cbn [Theme.rc] in Heq; rewrite Heq; reflexivity).
  vm_compute in Hkey. discriminate.
Qed.



(** * Further properties of the module *)

(** ** The translation table *)

Section built_styles.
Context {mpl : Validators}.

(** The configuration built for a palette is the table of assignments at
    the validated values of the palette. *)
Lemma built_style_expected colors style :
  built_style colors = Some style →
  ∃ text bg gray a b c d e tv bgv grayv cyc0 cyc,
    PyDict.getitem colors "text" = Some text
    ∧ PyDict.getitem colors "background" = Some bg
    ∧ PyDict.getitem colors "gray" = Some gray
    ∧ PyDict.getitem colors "a" = Some a
    ∧ PyDict.getitem colors "b" = Some b
    ∧ PyDict.getitem colors "c" = Some c
    ∧ PyDict.getitem colors "d" = Some d
    ∧ PyDict.getitem colors "e" = Some e
    ∧ validate_color text = Some tv
    ∧ validate_color bg = Some bgv
    ∧ validate_color gray = Some grayv
    ∧ cycler_color [a; b; c; d; e] = Some cyc0
    ∧ validate "axes.prop_cycle" cyc0 = Ok cyc
    ∧ style = expected_style text bg tv bgv grayv cyc.
Proof.
  intros Hstyle. destruct (built_style_Some colors style Hstyle) as [_ Hrun].
  destruct (build_rcparams_Ok_style colors (World ∅ []) _ _ (Hrun (World ∅ [])))
    as (text & bg & gray & a & b & c & d & e & tv & bgv & grayv & cyc0 & cyc
        & Ht & Hbg & Hgray & Ha & Hb & Hc & Hd & He & Htv & Hbgv & Hgrayv & Hcyc0 & Hcyc
        & _ & Hw).
  cbn [heap rcParams app] in Hw.
  exists text, bg, gray, a, b, c, d, e, tv, bgv, grayv, cyc0, cyc.
  split_and!; [done..|]. congruence.
Qed.

End built_styles.

(** X1. For a palette that validation accepts, the translation stores the
    validated background under the figure and axes face/edge keys, the
    validated text colour under the axes edge, label, text, tick and grid
    keys, the validated gray under the patch and flier edge keys; the
    savefig keys and the title colour, whose validators also accept the word
    auto, hold the same validated colour unless the palette's value is this
    word. The palette-independent settings are stored as the library keeps
    them: the font family as the list of sans-serif, the sans-serif fallback
    list, no legend frame, ASCII minus, no offset notation, the exponent
    limits as the list of -4 and 5, error-bar caps of 2.0. A colour written
    as [#rrggbb] or [#rrggbbaa] is stored as it is. *)
Theorem build_rcparams_roles {mpl : Validators} colors w text bg gray :
  build_error colors = None →
  PyDict.getitem colors "text" = Some text →
  PyDict.getitem colors "background" = Some bg →
  PyDict.getitem colors "gray" = Some gray →
  ∃ w' rc tv bgv grayv,
    _build_rcparams colors w = (w', Ok rc)
    ∧ validate_color text = Some tv
    ∧ validate_color bg = Some bgv
    ∧ validate_color gray = Some grayv
    ∧ (hex_color text = true → tv = VStr text)
    ∧ (hex_color bg = true → bgv = VStr bg)
    ∧ (hex_color gray = true → grayv = VStr gray)
    ∧ let style := deref w' rc in
      Forall (λ key, style !! key = Some bgv)
        ["figure.facecolor"; "figure.edgecolor"; "axes.facecolor"]
      ∧ Forall (λ key, style !! key = Some (auto_or bg bgv))
          ["savefig.facecolor"; "savefig.edgecolor"]
      ∧ Forall (λ key, style !! key = Some tv)
          ["axes.edgecolor"; "axes.labelcolor"; "text.color"; "xtick.color";
           "ytick.color"; "grid.color"]
      ∧ style !! "axes.titlecolor" = Some (auto_or text tv)
      ∧ Forall (λ key, style !! key = Some grayv)
          ["patch.edgecolor"; "boxplot.flierprops.markeredgecolor"]
      ∧ style !! "font.family" = Some (VStrList ["sans-serif"])
      ∧ style !! "font.sans-serif"
        = Some (VStrList ["NanumBarunGothicOTF"; "NanumBarunGothic"; "NanumGothic";
                          "Apple SD Gothic Neo"; "Malgun Gothic"; "DejaVu Sans"])
      ∧ style !! "legend.frameon" = Some (VBool false)
      ∧ style !! "axes.unicode_minus" = Some (VBool false)
      ∧ style !! "axes.formatter.useoffset" = Some (VBool false)
      ∧ style !! "axes.formatter.limits" = Some (VIntList [-4; 5]%Z)
      ∧ style !! "errorbar.capsize" = Some (VFloat 2.0).
Proof.
  intros Herr Ht Hbg Hgray.
  destruct (build_rcparams_accepted colors Herr)
    as (text' & bg' & gray' & a & b & c & d & e & tv & bgv & grayv & cyc0 & cyc
        & Ht' & Hbg' & Hgray' & _ & _ & _ & _ & _ & Htv & Hbgv & Hgrayv & _ & _ & Hrun).
  assert (text' = text) as -> by congruence. assert (bg' = bg) as -> by congruence.
  assert (gray' = gray) as -> by congruence.
  exists (World (rcParams w) (heap w ++ [expected_style text bg tv bgv grayv cyc])),
         (length (heap w)), tv, bgv, grayv.
  split_and!; [apply Hrun | done | done | done | | | |].
  - intros Hhex. rewrite hex_color_valid in Htv by done. congruence.
  - intros Hhex. rewrite hex_color_valid in Hbgv by done. congruence.
  - intros Hhex. rewrite hex_color_valid in Hgrayv by done. congruence.
  - cbv zeta. rewrite deref_last. split_and!.
    + repeat constructor.
    + repeat constructor.
    + repeat constructor.
    + reflexivity.
    + repeat constructor.
    + reflexivity.
    + reflexivity.
    + reflexivity.
    + reflexivity.
    + reflexivity.
    + reflexivity.
    + reflexivity.
Qed.

Lemma build_rcparams_roles_witness :
  ∃ w' rc tv bgv grayv,
    _build_rcparams (mpl:=strict_validators)
      (default [] (PyDict.getitem sample_style "dark")) sample_world = (w', Ok rc)
    ∧ validate_color (mpl:=strict_validators) "#eeeeee" = Some tv
    ∧ validate_color (mpl:=strict_validators) "#111111" = Some bgv
    ∧ validate_color (mpl:=strict_validators) "#777777" = Some grayv
    ∧ (hex_color "#eeeeee" = true → tv = VStr "#eeeeee")
    ∧ (hex_color "#111111" = true → bgv = VStr "#111111")
    ∧ (hex_color "#777777" = true → grayv = VStr "#777777")
    ∧ let style := deref w' rc in
      Forall (λ key, style !! key = Some bgv)
        ["figure.facecolor"; "figure.edgecolor"; "axes.facecolor"]
      ∧ Forall (λ key, style !! key = Some (auto_or "#111111" bgv))
          ["savefig.facecolor"; "savefig.edgecolor"]
      ∧ Forall (λ key, style !! key = Some tv)
          ["axes.edgecolor"; "axes.labelcolor"; "text.color"; "xtick.color";
           "ytick.color"; "grid.color"]
      ∧ style !! "axes.titlecolor" = Some (auto_or "#eeeeee" tv)
      ∧ Forall (λ key, style !! key = Some grayv)
          ["patch.edgecolor"; "boxplot.flierprops.markeredgecolor"]
      ∧ style !! "font.family" = Some (VStrList ["sans-serif"])
      ∧ style !! "font.sans-serif"
        = Some (VStrList ["NanumBarunGothicOTF"; "NanumBarunGothic"; "NanumGothic";
                          "Apple SD Gothic Neo"; "Malgun Gothic"; "DejaVu Sans"])
      ∧ style !! "legend.frameon" = Some (VBool false)
      ∧ style !! "axes.unicode_minus" = Some (VBool false)
      ∧ style !! "axes.formatter.useoffset" = Some (VBool false)
      ∧ style !! "axes.formatter.limits" = Some (VIntList [-4; 5]%Z)
      ∧ style !! "errorbar.capsize" = Some (VFloat 2.0).
Proof.
  apply (build_rcparams_roles (mpl:=strict_validators)
           (default [] (PyDict.getitem sample_style "dark")) sample_world
           "#eeeeee" "#111111" "#777777"); reflexivity.
Defined.

(** X2. For a palette that validation accepts, the translation returns a
    new object that has exactly the thirty keys of [theme_keys], whatever
    the palette holds; the objects that existed and the global configuration
    are as before. *)
Theorem build_rcparams_keys {mpl : Validators} colors w :
  build_error colors = None →
  ∃ w' rc,
    _build_rcparams colors w = (w', Ok rc)
    ∧ rc = length (heap w)
    ∧ dom (deref w' rc) = list_to_set theme_keys
    ∧ size (deref w' rc) = 30
    ∧ (∀ l, l < length (heap w) → deref w' l = deref w l)
    ∧ rcParams w' = rcParams w.
Proof.
  intros Herr. destruct (build_rcparams_Ok colors Herr) as (style & Hstyle & Hrun).
  pose proof (built_style_dom colors style Hstyle) as Hdom.
  eexists _, _. split; [apply Hrun|]. rewrite deref_last. split_and!; [done..| | |done].
  - rewrite <-size_dom, Hdom. by apply (bool_decide_unpack _); vm_compute.
  - intros l Hl. by apply deref_extend.
Qed.

Lemma build_rcparams_keys_witness :
  ∃ w' rc,
    _build_rcparams (mpl:=strict_validators)
      (default [] (PyDict.getitem sample_style "dark")) sample_world1 = (w', Ok rc)
    ∧ rc = length (heap sample_world1)
    ∧ dom (deref w' rc) = list_to_set theme_keys
    ∧ size (deref w' rc) = 30
    ∧ (∀ l, l < length (heap sample_world1) → deref w' l = deref sample_world1 l)
    ∧ rcParams w' = rcParams sample_world1.
Proof. apply (build_rcparams_keys (mpl:=strict_validators)); reflexivity. Defined.

Lemma colors_getitem_agree colors1 colors2 key :
  PyDict.getitem colors1 key = PyDict.getitem colors2 key →
  colors_getitem colors1 key = colors_getitem colors2 key.
Proof. unfold colors_getitem. by intros ->. Qed.

(** X3. The translation reads the eight role keys and nothing else: two
    palettes that agree on them are translated alike, whether the
    translation succeeds or fails, whatever else they hold and in whatever
    order. *)
Theorem build_rcparams_role_keys_only {mpl : Validators} colors1 colors2 w :
  Forall (λ key, PyDict.getitem colors1 key = PyDict.getitem colors2 key) required_keys →
  _build_rcparams colors1 w = _build_rcparams colors2 w.
Proof.
  unfold required_keys. rewrite !Forall_cons.
  intros (Ht%colors_getitem_agree & Hbg%colors_getitem_agree & Hgray%colors_getitem_agree
          & Ha%colors_getitem_agree & Hb%colors_getitem_agree & Hc%colors_getitem_agree
          & Hd%colors_getitem_agree & He%colors_getitem_agree & _).
  unfold _build_rcparams. by rewrite Ht, Hbg, Hgray, Ha, Hb, Hc, Hd, He.
Qed.

Lemma build_rcparams_role_keys_only_witness :
  _build_rcparams (mpl:=strict_validators) shuffled_light sample_world1
  = _build_rcparams (mpl:=strict_validators)
      (default [] (PyDict.getitem sample_style "light")) sample_world1.
Proof.
  apply (build_rcparams_role_keys_only (mpl:=strict_validators)). repeat constructor.
Defined.



(** A palette without background raises the [KeyError] of the background;
    a palette without accents and with a background that has a digit missing
    raises the [ValueError] of the first assignment of the background. *)
Example first_missing_background :
  first_missing [("text", "#222222"); ("gray", "#888888"); ("a", "#1f77b4")]
  = Some "background"
  ∧ ∀ mpl : Validators,
      missing_error [("text", "#222222"); ("gray", "#888888"); ("a", "#1f77b4")]
        "background" = KeyError "background".
Proof. split; [reflexivity | intros mpl; reflexivity]. Qed.

Example first_missing_accent_rejected_background :
  first_missing accentless_palette = Some "a"
  ∧ ∀ mpl : Validators,
      missing_error accentless_palette "a" = ValueError "figure.facecolor".
Proof. split; [reflexivity | intros mpl; reflexivity]. Qed.

(** ** The registry after the import *)

Lemma registry_of_getitem_other items : ∀ themes next name,
  name ∉ items.*1 →
  PyDict.getitem (registry_of items themes next) name = PyDict.getitem themes name.
Proof.
  induction items as [|[name0 colors0] items IH]; intros themes next name Hname; [done|].
  csimpl in Hname. apply not_elem_of_cons in Hname as [Hne Hname].
  cbn [registry_of]. rewrite IH by done. by apply PyDictFacts.getitem_setitem_ne.
Qed.

Lemma registry_of_getitem items : ∀ themes next i name colors,
  NoDup items.*1 →
  items !! i = Some (name, colors) →
  PyDict.getitem (registry_of items themes next) name
  = Some (Theme.mk name colors (next + i)).
Proof.
  induction items as [|[name0 colors0] items IH]; intros themes next i name colors Hnd Hi;
    [done|].
  csimpl in Hnd. apply NoDup_cons in Hnd as [Hfresh Hnd]. cbn [registry_of].
  destruct i as [|i]; simpl in Hi.
  - simplify_eq. rewrite registry_of_getitem_other by done.
    rewrite PyDictFacts.getitem_setitem_eq. by rewrite Nat.add_0_r.
  - rewrite (IH _ (S next) i name colors Hnd Hi). do 2 f_equal. lia.
Qed.

Lemma getitem_lookup {V} (d : list (string * V)) name v :
  PyDict.getitem d name = Some v → ∃ i, d !! i = Some (name, v).
Proof.
  intros Hget%PyDictFacts.getitem_Some_elem. by apply list_elem_of_lookup.
Qed.

(** The theme stored for a name of a loaded dictionary of palettes. *)
Lemma loaded_theme {mpl : Validators} configs w w' themes name colors :
  NoDup (PyDict.keys configs) →
  load_themes configs w = (w', Ok themes) →
  PyDict.getitem configs name = Some colors →
  ∃ theme style,
    get themes name w' = (w', Ok theme)
    ∧ Theme.name theme = name
    ∧ Theme.colors theme = colors
    ∧ built_style colors = Some style
    ∧ deref w' (Theme.rc theme) = style
    ∧ length (heap w) ≤ Theme.rc theme < length (heap w').
Proof.
  intros Hnd (objs & _ & Hobjs & -> & ->)%load_themes_run [i Hi]%getitem_lookup.
  destruct (Forall2_lookup_l _ _ _ _ _ Hobjs Hi) as (style & Hstyle & Hbuilt).
  exists (Theme.mk name colors (length (heap w) + i)), style.
  pose proof (registry_of_getitem configs [] (length (heap w)) i name colors Hnd Hi) as Hget.
  split_and!; [by unfold get; rewrite Hget | done | done | done | | |].
  - unfold deref. cbn [heap Theme.rc]. rewrite lookup_app_r by lia.
    replace (length (heap w) + i - length (heap w)) with i by lia. by rewrite Hstyle.
  - cbn [Theme.rc]. lia.
  - cbn [Theme.rc heap]. rewrite length_app. apply lookup_lt_Some in Hstyle. lia.
Qed.

(** X5. After [load_themes] succeeded on a dictionary of palettes, every
    name of the dictionary is stored with a theme that has this name, the
    very palette of the dictionary, and a new configuration object that
    holds what the translation builds for the palette. *)
Theorem load_themes_entries {mpl : Validators} configs w w' themes name colors :
  NoDup (PyDict.keys configs) →
  load_themes configs w = (w', Ok themes) →
  PyDict.getitem configs name = Some colors →
  ∃ theme style,
    get themes name w' = (w', Ok theme)
    ∧ Theme.name theme = name
    ∧ Theme.colors theme = colors
    ∧ built_style colors = Some style
    ∧ deref w' (Theme.rc theme) = style
    ∧ length (heap w) ≤ Theme.rc theme < length (heap w').
Proof. apply loaded_theme. Qed.

Lemma load_themes_entries_witness :
  ∃ theme style,
    get sample_themes "dark" sample_world1 = (sample_world1, Ok theme)
    ∧ Theme.name theme = "dark"
    ∧ Theme.colors theme = default [] (PyDict.getitem sample_style "dark")
    ∧ built_style (mpl:=strict_validators)
        (default [] (PyDict.getitem sample_style "dark")) = Some style
    ∧ deref sample_world1 (Theme.rc theme) = style
    ∧ length (heap sample_world) ≤ Theme.rc theme < length (heap sample_world1).
Proof.
  apply (load_themes_entries (mpl:=strict_validators) sample_style sample_world sample_world1 sample_themes "dark").
  - apply (bool_decide_unpack _). vm_compute. exact I.
  - reflexivity.
  - reflexivity.
Defined.

Lemma loaded_theme_inv {mpl : Validators} configs w w' themes name theme :
  NoDup (PyDict.keys configs) →
  load_themes configs w = (w', Ok themes) →
  PyDict.getitem themes name = Some theme →
  ∃ i colors,
    configs !! i = Some (name, colors)
    ∧ theme = Theme.mk name colors (length (heap w) + i).
Proof.
  intros Hnd Hload Hget.
  destruct (load_themes_run configs w w' themes Hload) as (objs & _ & _ & _ & ->).
  assert (name ∈ configs.*1) as Hin.
  { assert (name ∈ PyDict.keys (registry_of configs [] (length (heap w)))) as Hk
      by (apply PyDictFacts.getitem_is_Some; eauto).
    rewrite registry_of_keys, add_keys_elem in Hk. destruct Hk as [Hk|Hk]; [|done].
    by apply elem_of_nil in Hk. }
  apply list_elem_of_fmap in Hin as ([name' colors] & -> & [i Hi]%list_elem_of_lookup).
  exists i, colors. split; [done|].
  rewrite (registry_of_getitem configs [] _ i _ colors Hnd Hi) in Hget. by simplify_eq.
Qed.

(** X6. The themes of a loaded dictionary share no configuration object:
    two different names are stored with different references, so an
    assignment to an entry of one stored configuration leaves the
    configuration stored for any other name as it was. *)
Theorem load_themes_no_aliasing {mpl : Validators}
    configs w w' themes name1 name2 theme1 theme2 :
  NoDup (PyDict.keys configs) →
  load_themes configs w = (w', Ok themes) →
  PyDict.getitem themes name1 = Some theme1 →
  PyDict.getitem themes name2 = Some theme2 →
  name1 ≠ name2 →
  Theme.rc theme1 ≠ Theme.rc theme2
  ∧ ∀ key val,
      deref (rc_setitem (Theme.rc theme1) key val w').1 (Theme.rc theme2)
      = deref w' (Theme.rc theme2).
Proof.
  intros Hnd Hload Hget1 Hget2 Hne.
  destruct (loaded_theme_inv configs w w' themes name1 theme1 Hnd Hload Hget1)
    as (i1 & colors1 & Hi1 & ->).
  destruct (loaded_theme_inv configs w w' themes name2 theme2 Hnd Hload Hget2)
    as (i2 & colors2 & Hi2 & ->).
  assert (i1 ≠ i2) as Hi by (intros ->; congruence).
  cbn [Theme.rc]. split; [lia|].
  intros key val. apply deref_setitem_ne. lia.
Qed.

Lemma load_themes_no_aliasing_witness :
  Theme.rc (Theme.mk "light" (default [] (PyDict.getitem sample_style "light")) 0)
  ≠ Theme.rc (Theme.mk "dark" (default [] (PyDict.getitem sample_style "dark")) 1)
  ∧ ∀ key val,
      deref (rc_setitem
               (Theme.rc (Theme.mk "light"
                            (default [] (PyDict.getitem sample_style "light")) 0))
               key val sample_world1).1
        (Theme.rc (Theme.mk "dark" (default [] (PyDict.getitem sample_style "dark")) 1))
      = deref sample_world1
          (Theme.rc (Theme.mk "dark" (default [] (PyDict.getitem sample_style "dark")) 1)).
Proof.
  apply (load_themes_no_aliasing (mpl:=strict_validators) sample_style sample_world sample_world1 sample_themes
           "light" "dark").
  - apply (bool_decide_unpack _). vm_compute. exact I.
  - reflexivity.
  - reflexivity.
  - reflexivity.
  - apply (bool_decide_unpack _). vm_compute. exact I.
Defined.



(** X8. [load_themes] never touches the global configuration nor an
    object that existed before, whether it succeeds or fails. *)
Theorem load_themes_frame {mpl : Validators} configs w :
  let w' := (load_themes configs w).1 in
  rcParams w' = rcParams w
  ∧ heap w `prefix_of` heap w'
  ∧ ∀ l, l < length (heap w) → deref w' l = deref w l.
Proof.
  assert (∃ objs, (load_themes configs w).1 = World (rcParams w) (heap w ++ objs))
    as [objs ->].
  { destruct (load_themes_cases configs w)
      as [(_ & objs & _ & _ & Heq)|(_ & objs & err & Heq)]; rewrite Heq; by exists objs. }
  cbv zeta. split_and!; [done | by eexists |].
  intros l Hl. by apply deref_extend.
Qed.

Lemma load_themes_frame_witness :
  let w' := (load_themes (mpl:=strict_validators) broken_style sample_world1).1 in
  rcParams w' = rcParams sample_world1
  ∧ heap sample_world1 `prefix_of` heap w'
  ∧ ∀ l, l < length (heap sample_world1) → deref w' l = deref sample_world1 l.
Proof. apply (load_themes_frame (mpl:=strict_validators) broken_style sample_world1). Defined.

(** ** Applying loaded themes *)

Lemma get_Ok_inv themes name w w' theme :
  get themes name w = (w', Ok theme) → PyDict.getitem themes name = Some theme.
Proof.
  unfold get, mret, M_ret, raise. destruct (PyDict.getitem themes name); congruence.
Qed.

(** X9. After a successful import, [use(name)] gives the global
    configuration the validated background of the palette as figure
    facecolor, its validated text colour as text colour and the validated
    cycler of its accents as colour cycle; when the palette's values are
    written as [#rrggbb] or [#rrggbbaa], these are the palette's background
    and text colour themselves and a cycle that starts with its accent a.
    Every key outside [theme_keys] keeps the value it had before the
    import. *)
Theorem load_then_use {mpl : Validators} configs w w' themes name colors bg text a :
  NoDup (PyDict.keys configs) →
  load_themes configs w = (w', Ok themes) →
  PyDict.getitem configs name = Some colors →
  PyDict.getitem colors "background" = Some bg →
  PyDict.getitem colors "text" = Some text →
  PyDict.getitem colors "a" = Some a →
  ∃ theme w'' bgv tv cyc,
    use themes name w' = (w'', Ok theme)
    ∧ Theme.colors theme = colors
    ∧ validate_color bg = Some bgv
    ∧ validate_color text = Some tv
    ∧ (∃ b c d e cyc0,
         PyDict.getitem colors "b" = Some b
         ∧ PyDict.getitem colors "c" = Some c
         ∧ PyDict.getitem colors "d" = Some d
         ∧ PyDict.getitem colors "e" = Some e
         ∧ cycler_color [a; b; c; d; e] = Some cyc0
         ∧ validate "axes.prop_cycle" cyc0 = Ok cyc)
    ∧ rcParams w'' !! "figure.facecolor" = Some bgv
    ∧ rcParams w'' !! "text.color" = Some tv
    ∧ rcParams w'' !! "axes.prop_cycle" = Some cyc
    ∧ (hex_palette colors = true →
       bgv = VStr bg ∧ tv = VStr text ∧ ∃ others, cyc = VCycler "color" (a :: others))
    ∧ (∀ key, key ∉ theme_keys → rcParams w'' !! key = rcParams w !! key).
Proof.
  intros Hnd Hload Hcolors Hbg Ht Ha.
  destruct (loaded_theme configs w w' themes name colors Hnd Hload Hcolors)
    as (theme & style & Hget & _ & Hpal & Hstyle & Hderef & _).
  pose proof (get_Ok_inv themes name w' w' theme Hget) as Hstored.
  pose proof (built_style_dom colors style Hstyle) as Hdom.
  destruct (built_style_expected colors style Hstyle)
    as (text' & bg' & gray & a' & b & c & d & e & tv & bgv & grayv & cyc0 & cyc
        & Ht' & Hbg' & Hgray & Ha' & Hb & Hc & Hd & He
        & Htv & Hbgv & Hgrayv & Hcyc0 & Hcyc & Hexp).
  assert (text' = text) as -> by congruence. assert (bg' = bg) as -> by congruence.
  assert (a' = a) as -> by congruence.
  destruct (load_themes_Ok configs w w' themes Hload) as (_ & _ & Hglobal).
  exists theme, (World (deref w' (Theme.rc theme) ∪ rcParams w') (heap w')), bgv, tv, cyc.
  split; [by apply use_present|]. cbn [rcParams].
  rewrite Hglobal, Hderef. split_and!.
  - done.
  - done.
  - done.
  - exists b, c, d, e, cyc0. done.
  - apply lookup_union_Some_l. by rewrite Hexp.
  - apply lookup_union_Some_l. by rewrite Hexp.
  - apply lookup_union_Some_l. by rewrite Hexp.
  - intros (text2 & bg2 & gray2 & a2 & b' & c' & d' & e' &
            Ht2 & Hbg2 & _ & Ha2 & _ & _ & _ & _ & _ & Hstyle')%hex_palette_built.
    assert (text2 = text) as -> by congruence. assert (bg2 = bg) as -> by congruence.
    assert (a2 = a) as -> by congruence.
    rewrite Hstyle in Hstyle'. injection Hstyle' as Hstyle'. rewrite Hexp in Hstyle'.
    assert (expected_style text bg tv bgv grayv cyc !! "figure.facecolor"
            = Some (VStr bg)) as Hk1 by (by rewrite Hstyle').
    assert (expected_style text bg tv bgv grayv cyc !! "text.color"
            = Some (VStr text)) as Hk2 by (by rewrite Hstyle').
    assert (expected_style text bg tv bgv grayv cyc !! "axes.prop_cycle"
            = Some (VCycler "color" [a; b'; c'; d'; e'])) as Hk3 by (by rewrite Hstyle').
    change (Some bgv = Some (VStr bg)) in Hk1.
    change (Some tv = Some (VStr text)) in Hk2.
    change (Some cyc = Some (VCycler "color" [a; b'; c'; d'; e'])) in Hk3.
    clear Hstyle'. injection Hk1 as ->. injection Hk2 as ->. injection Hk3 as ->.
    split_and!; [done | done | by eexists].
  - intros key Hkey. apply lookup_union_r, not_elem_of_dom. rewrite Hdom.
    by rewrite elem_of_list_to_set.
Qed.

Lemma load_then_use_witness :
  ∃ theme w'' bgv tv cyc,
    use sample_themes "dark" sample_world1 = (w'', Ok theme)
    ∧ Theme.colors theme = default [] (PyDict.getitem sample_style "dark")
    ∧ validate_color (mpl:=strict_validators) "#111111" = Some bgv
    ∧ validate_color (mpl:=strict_validators) "#eeeeee" = Some tv
    ∧ (∃ b c d e cyc0,
         PyDict.getitem (default [] (PyDict.getitem sample_style "dark")) "b" = Some b
         ∧ PyDict.getitem (default [] (PyDict.getitem sample_style "dark")) "c" = Some c
         ∧ PyDict.getitem (default [] (PyDict.getitem sample_style "dark")) "d" = Some d
         ∧ PyDict.getitem (default [] (PyDict.getitem sample_style "dark")) "e" = Some e
         ∧ cycler_color (mpl:=strict_validators) ["#8dd3c7"; b; c; d; e] = Some cyc0
         ∧ validate (mpl:=strict_validators) "axes.prop_cycle" cyc0 = Ok cyc)
    ∧ rcParams w'' !! "figure.facecolor" = Some bgv
    ∧ rcParams w'' !! "text.color" = Some tv
    ∧ rcParams w'' !! "axes.prop_cycle" = Some cyc
    ∧ (hex_palette (default [] (PyDict.getitem sample_style "dark")) = true →
       bgv = VStr "#111111" ∧ tv = VStr "#eeeeee"
       ∧ ∃ others, cyc = VCycler "color" ("#8dd3c7" :: others))
    ∧ (∀ key, key ∉ theme_keys → rcParams w'' !! key = rcParams sample_world !! key).
Proof.
  apply (load_then_use (mpl:=strict_validators)
           sample_style sample_world sample_world1 sample_themes "dark"
           (default [] (PyDict.getitem sample_style "dark"))).
  - apply (bool_decide_unpack _). vm_compute. exact I.
  - reflexivity.
  - reflexivity.
  - reflexivity.
  - reflexivity.
  - reflexivity.
Defined.

(** X10. [use] is idempotent: a second [use] of the same name changes
    nothing and returns what the first returned, for names of the registry
    and for others. *)
Theorem use_idempotent themes name w :
  use themes name (use themes name w).1 = use themes name w.
Proof.
  destruct (PyDict.getitem themes name) as [theme|] eqn:Hget.
  - rewrite !(use_present themes name theme _ Hget). cbn [fst rcParams heap].
    unfold deref. cbn [heap]. by rewrite (assoc_L (∪)), (idemp_L (∪)).
  - apply PyDictFacts.getitem_None in Hget. by rewrite !(use_absent themes name _ Hget).
Qed.

Lemma loaded_style_dom {mpl : Validators} configs w w' themes name theme :
  load_themes configs w = (w', Ok themes) →
  NoDup (PyDict.keys configs) →
  PyDict.getitem themes name = Some theme →
  dom (deref w' (Theme.rc theme)) = list_to_set theme_keys
  ∧ Theme.rc theme < length (heap w').
Proof.
  intros Hload Hnd Hget.
  destruct (loaded_theme_inv configs w w' themes name theme Hnd Hload Hget)
    as (i & colors & Hi & ->).
  assert (PyDict.getitem configs name = Some colors) as Hcolors.
  { destruct (PyDict.getitem configs name) as [colors'|] eqn:Hc.
    - destruct (getitem_lookup configs name colors' Hc) as [j Hj].
      assert (i = j) as ->; [|congruence].
      eapply NoDup_lookup; [exact Hnd | |].
      + unfold PyDict.keys. by rewrite list_lookup_fmap, Hi.
      + unfold PyDict.keys. by rewrite list_lookup_fmap, Hj.
    - apply PyDictFacts.getitem_None in Hc. exfalso. apply Hc.
      unfold PyDict.keys. apply list_elem_of_fmap. exists (name, colors).
      split; [done|]. by eapply list_elem_of_lookup_2. }
  destruct (loaded_theme configs w w' themes name colors Hnd Hload Hcolors)
    as (theme' & style & Hget' & _ & _ & Hstyle & Hderef & _ & Hlt).
  assert (theme' = Theme.mk name colors (length (heap w) + i)) as ->.
  { apply get_Ok_inv in Hget'. congruence. }
  split; [|done]. rewrite Hderef. by apply (built_style_dom colors).
Qed.

Lemma union_override (m1 m2 g : rcmap) :
  dom m1 = dom m2 → m2 ∪ (m1 ∪ g) = m2 ∪ g.
Proof.
  intros Hdom. apply map_eq. intros key.
  destruct (m2 !! key) as [v|] eqn:Hkey.
  - by rewrite !(lookup_union_Some_l _ _ _ v).
  - rewrite (lookup_union_r m2 (m1 ∪ g)), (lookup_union_r m2 g) by done.
    apply lookup_union_r, not_elem_of_dom. rewrite Hdom. by apply not_elem_of_dom.
Qed.

(** X11. After a successful import and any sequence of calls of the
    interface, the theme applied last wins completely: [use] of one name
    followed by [use] of another leaves the global configuration that [use]
    of the second alone leaves, because every theme sets the same keys. *)
Theorem use_overrides {mpl : Validators} configs w0 w1 themes ops name1 name2 :
  NoDup (PyDict.keys configs) →
  load_themes configs w0 = (w1, Ok themes) →
  name1 ∈ PyDict.keys themes →
  name2 ∈ PyDict.keys themes →
  let w := run_ops themes ops w1 in
  (use themes name2 (use themes name1 w).1).1 = (use themes name2 w).1.
Proof.
  intros Hnd Hload [theme1 Hget1]%PyDictFacts.getitem_is_Some
         [theme2 Hget2]%PyDictFacts.getitem_is_Some w.
  destruct (loaded_style_dom configs w0 w1 themes name1 theme1 Hload Hnd Hget1)
    as [Hdom1 Hlt1].
  destruct (loaded_style_dom configs w0 w1 themes name2 theme2 Hload Hnd Hget2)
    as [Hdom2 Hlt2].
  pose proof (run_ops_heap themes ops w1) as Hpre. fold w in Hpre.
  rewrite (use_present themes name1 theme1 _ Hget1).
  rewrite !(use_present themes name2 theme2 _ Hget2). cbn [fst rcParams heap].
  f_equal. unfold deref at 1. cbn [heap]. fold (deref w (Theme.rc theme2)).
  apply union_override.
  rewrite !(deref_prefix w1 w) by done. by rewrite Hdom1, Hdom2.
Qed.

Lemma use_overrides_witness :
  let w := run_ops sample_themes sample_ops sample_world1 in
  (use sample_themes "dark" (use sample_themes "light" w).1).1
  = (use sample_themes "dark" w).1.
Proof.
  apply (use_overrides (mpl:=strict_validators) sample_style sample_world sample_world1 sample_themes sample_ops
           "light" "dark").
  - apply (bool_decide_unpack _). vm_compute. exact I.
  - reflexivity.
  - apply (bool_decide_unpack _). vm_compute. exact I.
  - apply (bool_decide_unpack _). vm_compute. exact I.
Defined.

(** ** Iteration, scopes and copies *)

Lemma foldl_use themes names :
  Forall (λ name, name ∈ PyDict.keys themes) names →
  ∀ w, foldl (λ w name, (use themes name w).1) w names
       = World (applied themes (heap w) (rcParams w) names) (heap w).
Proof.
  induction 1 as [|name names [theme Hget]%PyDictFacts.getitem_is_Some _ IH]; intros w.
  - by destruct w.
  - cbn [foldl]. rewrite (use_present themes name theme w Hget). cbn [fst].
    rewrite IH. cbn [heap rcParams]. rewrite applied_cons.
    by rewrite (style_of_Some themes (heap w) name theme Hget).
Qed.

(** X12. Going through [iter_use(names)] to its end is calling [use] on
    each name in turn: for names of the registry both leave the same
    world. *)
Theorem iter_use_is_repeated_use themes names w :
  Forall (λ name, name ∈ PyDict.keys themes) names →
  ∃ seen,
    drive themes (S (length names)) (GenCreated (Some names)) w
    = (foldl (λ w name, (use themes name w).1) w names, seen, Exhausted)
    ∧ length seen = length names.
Proof.
  intros Hnames. eexists. split.
  - replace (S (length names)) with (length names + 1) by lia.
    rewrite (drive_exhaust themes names 0 w Hnames). by rewrite foldl_use.
  - rewrite <-(seen_of_names themes (heap w) names (rcParams w) Hnames) at 2.
    by rewrite !length_fmap.
Qed.

Lemma iter_use_is_repeated_use_witness :
  ∃ seen,
    drive sample_themes (S (length ["dark"; "light"; "dark"]))
      (GenCreated (Some ["dark"; "light"; "dark"])) sample_world1
    = (foldl (λ w name, (use sample_themes name w).1) sample_world1
         ["dark"; "light"; "dark"], seen, Exhausted)
    ∧ length seen = length ["dark"; "light"; "dark"].
Proof.
  apply iter_use_is_repeated_use. vm_compute. repeat constructor.
Defined.

(** X13. For a name that is not in the registry, [context] raises the
    [KeyError] of [get] before the block is entered: the body, whatever it
    is, does not run, and the world is as before. *)
Theorem context_unknown {A} themes name (body : M A) w :
  name ∉ PyDict.keys themes →
  context themes name body w = (w, Raise (KeyError (unknown_theme themes name)))
  ∧ get themes name w = (w, Raise (KeyError (unknown_theme themes name))).
Proof.
  intros Habs. split; [|by apply get_absent].
  unfold context. by erewrite bind_Raise by by apply get_absent.
Qed.

Lemma context_unknown_witness :
  context sample_themes "unknown-theme" sample_body sample_world1
  = (sample_world1, Raise (KeyError (unknown_theme sample_themes "unknown-theme")))
  ∧ get sample_themes "unknown-theme" sample_world1
    = (sample_world1, Raise (KeyError (unknown_theme sample_themes "unknown-theme"))).
Proof.
  apply context_unknown. apply PyDictFacts.getitem_None. reflexivity.
Defined.

(** X14. For a name that is not in the registry, [to_rcparams] raises the
    [KeyError] of [get] before it creates the copy: no object is allocated
    and the world is as before. *)
Theorem to_rcparams_unknown themes name w :
  name ∉ PyDict.keys themes →
  to_rcparams themes name w = (w, Raise (KeyError (unknown_theme themes name)))
  ∧ get themes name w = (w, Raise (KeyError (unknown_theme themes name))).
Proof.
  intros Habs. split; [|by apply get_absent].
  unfold to_rcparams. by erewrite bind_Raise by by apply get_absent.
Qed.

Lemma to_rcparams_unknown_witness :
  to_rcparams sample_themes "unknown-theme" sample_world1
  = (sample_world1, Raise (KeyError (unknown_theme sample_themes "unknown-theme")))
  ∧ get sample_themes "unknown-theme" sample_world1
    = (sample_world1, Raise (KeyError (unknown_theme sample_themes "unknown-theme"))).
Proof.
  apply to_rcparams_unknown. apply PyDictFacts.getitem_None. reflexivity.
Defined.

(** X15. Updating the global configuration from the copy [to_rcparams]
    returns sets what [use] sets: for a name of the registry both leave the
    same global configuration. *)
Theorem to_rcparams_then_update themes w name :
  name ∈ PyDict.keys themes →
  ∃ copy w1,
    to_rcparams themes name w = (w1, Ok copy)
    ∧ rcParams (rcParams_update copy w1).1 = rcParams (use themes name w).1.
Proof.
  intros [theme Hget]%PyDictFacts.getitem_is_Some.
  eexists _, _. split; [by apply to_rcparams_present|].
  rewrite (use_present themes name theme w Hget).
  unfold rcParams_update. cbn [fst rcParams]. by rewrite deref_last.
Qed.

Lemma to_rcparams_then_update_witness :
  ∃ copy w1,
    to_rcparams sample_themes "light" sample_world1 = (w1, Ok copy)
    ∧ rcParams (rcParams_update copy w1).1
      = rcParams (use sample_themes "light" sample_world1).1.
Proof.
  apply to_rcparams_then_update.
  vm_compute. apply list_elem_of_here.
Defined.
